(** * DARA Agent Backend: the connection facade of [dara_agent_backend.py]

    A shallow embedding of [DARAConnectionManager]: the two connection slots,
    the connect operations, the dashboard and Cortex queries, [close_all] and
    the two connection tests.  The Snowflake driver, the private-key loader
    and the [json] module are outside the repository: the driver is a record
    of functions over an abstract world, every call to it is logged in a
    trace, and whatever it raises travels through the facade as a
    [DriverError].  [print] calls are left out. *)

From Stdlib Require Import ZArith List String Ascii Bool Lia DecimalString.
Import ListNotations.
Open Scope string_scope.

(** ** Values handed back by the driver *)

(** A scalar column value: [None], an integer, a [str], or the content of a
    [bytes] or [bytearray]. *)
Inductive value : Type :=
| VNone
| VInt (z : Z)
| VStr (s : string)
| VBytes (b : string).

(** A row of a default cursor is a tuple, a row of a [DictCursor] a dict
    from column name to value (kept in column order). *)
Definition tuple_row := list value.
Definition dict_row := list (string * value).

(** What [json.loads] builds. *)
#[local] Set Warnings "-register-all".
Inductive json : Type :=
| JNull
| JBool (b : bool)
| JNum (z : Z)
| JStr (s : string)
| JArr (items : list json)
| JObj (members : list (string * json)).

(** Handles to driver objects. *)
Definition conn := nat.
Definition cursor := nat.
Definition pkey := nat.

Inductive cursor_class : Type := SnowflakeCursor | DictCursor.

(** Keyword arguments of [snowflake.connector.connect]; a keyword that the
    caller does not pass is [None]. *)
Record connect_args : Type := mkArgs {
  arg_account : string;
  arg_user : string;
  arg_password : option string;
  arg_private_key : option pkey;
  arg_authenticator : option string;
  arg_warehouse : string;
  arg_database : string;
  arg_schema : string;
  arg_role : string
}.

(** ** Exceptions *)

Definition driver_exn := string.

Inductive exn : Type :=
| ConnectionError (msg : string)
| ValueError (msg : string)
| TypeError
| KeyError
| IndexError
| JSONDecodeError
| DriverError (e : driver_exn).

(** ** The driver *)

(** One entry per call that leaves the facade. *)
Inductive event : Type :=
| EvConnect (a : connect_args)
| EvLoadKey (path : string) (password : option string)
| EvCursor (c : conn) (k : cursor_class)
| EvExecute (cur : cursor) (sql : string)
| EvFetchone (cur : cursor)
| EvFetchall (cur : cursor)
| EvCursorClose (cur : cursor)
| EvClose (c : conn).

Definition is_execute (ev : event) : bool :=
  match ev with EvExecute _ _ => true | _ => false end.

Definition is_close (ev : event) : bool :=
  match ev with EvClose _ => true | _ => false end.

Definition is_connect (ev : event) : bool :=
  match ev with EvConnect _ => true | _ => false end.

(** [drv_load_key path password] stands for opening the key file, reading it
    and [serialization.load_pem_private_key]. *)
Record Driver (W : Type) : Type := mkDriver {
  drv_connect : connect_args -> W -> (driver_exn + conn) * W;
  drv_load_key : string -> option string -> W -> (driver_exn + pkey) * W;
  drv_cursor : conn -> cursor_class -> W -> (driver_exn + cursor) * W;
  drv_execute : cursor -> string -> W -> (driver_exn + unit) * W;
  drv_fetchone : cursor -> W -> (driver_exn + option tuple_row) * W;
  drv_fetchone_dict : cursor -> W -> (driver_exn + option dict_row) * W;
  drv_fetchall_dict : cursor -> W -> (driver_exn + list dict_row) * W;
  drv_cursor_close : cursor -> W -> (driver_exn + unit) * W;
  drv_close : conn -> W -> (driver_exn + unit) * W
}.

Arguments drv_connect {W}.
Arguments drv_load_key {W}.
Arguments drv_cursor {W}.
Arguments drv_execute {W}.
Arguments drv_fetchone {W}.
Arguments drv_fetchone_dict {W}.
Arguments drv_fetchall_dict {W}.
Arguments drv_cursor_close {W}.
Arguments drv_close {W}.

(** ** The facade's state *)

(** [self.dashboard_conn] and [self.cortex_conn].  A connection object has
    no truth value of its own, so [if not self.dashboard_conn] holds exactly
    when the slot is [None]. *)
Record manager : Type := mkManager {
  dashboard_conn : option conn;
  cortex_conn : option conn
}.

(** [DARAConnectionManager.__init__] *)
Definition init : manager :=
  {| dashboard_conn := None; cortex_conn := None |}.

Record state (W : Type) : Type := mkState {
  self : manager;
  world : W;
  trace : list event
}.

Arguments mkState {W}.
Arguments self {W}.
Arguments world {W}.
Arguments trace {W}.

(** ** Text *)

Definition nl : string := String "010" EmptyString.

Definition lines (l : list string) : string := String.concat nl l.

(** Python truth value of a [str]. *)
Definition str_truthy (s : string) : bool :=
  match s with EmptyString => false | _ => true end.

(** [x or d] for an optional [str]. *)
Definition str_or (x : option string) (d : string) : string :=
  match x with
  | Some s => if str_truthy s then s else d
  | None => d
  end.

(** [{n}] in an f-string, for an [int]. *)
Definition format_int (n : Z) : string := NilZero.string_of_int (Z.to_int n).

(** [pat.startswith('sfp_')] *)
Definition startswith (p s : string) : bool := String.prefix p s.

(** The registry of [get_dashboard_kpi]. *)
Definition delinquency_sql : string :=
  lines [ "";
    "                SELECT ";
    "                    COUNT(*) FILTER (WHERE dpd_bucket = '30') as dpd_30_count,";
    "                    COUNT(*) FILTER (WHERE dpd_bucket = '60') as dpd_60_count,";
    "                    COUNT(*) FILTER (WHERE dpd_bucket = '90+') as dpd_90_count,";
    "                    SUM(upb) FILTER (WHERE dpd_bucket = '30') as dpd_30_upb,";
    "                    SUM(upb) FILTER (WHERE dpd_bucket = '60') as dpd_60_upb,";
    "                    SUM(upb) FILTER (WHERE dpd_bucket = '90+') as dpd_90_upb";
    "                FROM loan_portfolio";
    "                WHERE status = 'ACTIVE'";
    "            " ].

Definition portfolio_overview_sql : string :=
  lines [ "";
    "                SELECT ";
    "                    COUNT(*) as total_loans,";
    "                    SUM(upb) as total_upb,";
    "                    AVG(upb) as avg_balance,";
    "                    COUNT(*) FILTER (WHERE current_status = 'CURRENT') * 100.0 / COUNT(*) as current_pct";
    "                FROM loan_portfolio";
    "                WHERE status = 'ACTIVE'";
    "            " ].

Definition queries : list (string * string) :=
  [ ("delinquency", delinquency_sql);
    ("portfolio_overview", portfolio_overview_sql) ].

(** [d.get(k)] *)
Fixpoint dict_get {A : Type} (d : list (string * A)) (k : string) : option A :=
  match d with
  | [] => None
  | (k', v) :: d' => if String.eqb k k' then Some v else dict_get d' k
  end.

(** [dict(row)]: a copy of the row's mapping. *)
Definition dict (r : dict_row) : dict_row := r.

Definition default_model : string := "snowflake-arctic".
Definition default_authenticator : string := "externalbrowser".
Definition default_limit : Z := 5.

Definition default_system_prompt : string :=
  lines [
    "You are DARA Agent, an AI assistant for mortgage servicing analytics. ";
    "You have access to loan portfolio data and can answer questions about delinquency, ";
    "foreclosures, escrow, payments, compliance, and customer service metrics." ].

Definition no_response : string :=
  "I couldn't generate a response. Please try again.".

(** The statement of [query_cortex]. *)
Definition complete_sql (model system_prompt user_question : string) : string :=
  lines [ "";
    "        SELECT SNOWFLAKE.CORTEX.COMPLETE(";
    "            '" ++ model ++ "',";
    "            ARRAY_CONSTRUCT(";
    "                OBJECT_CONSTRUCT('role', 'system', 'content', '" ++ system_prompt ++ "'),";
    "                OBJECT_CONSTRUCT('role', 'user', 'content', '" ++ user_question ++ "')";
    "            )";
    "        ) as response";
    "        " ].

(** The statement of [cortex_search]. *)
Definition search_sql (search_service query : string) (columns : list string)
    (limit : Z) : string :=
  lines [ "";
    "        SELECT " ++ String.concat ", " columns;
    "        FROM TABLE(";
    "            " ++ search_service ++ ".SEARCH(";
    "                '" ++ query ++ "',";
    "                LIMIT => " ++ format_int limit;
    "            )";
    "        )";
    "        " ].

(** The messages of the facade's own exceptions. *)
Definition dashboard_not_connected : exn :=
  ConnectionError "Dashboard not connected. Call connect_dashboard_* first.".
Definition cortex_not_connected : exn :=
  ConnectionError "Cortex not connected. Call connect_cortex_pat first.".
Definition search_not_connected : exn :=
  ConnectionError "Cortex not connected".
Definition both_connections_required : exn :=
  ConnectionError "Both Dashboard and Cortex connections required".
Definition invalid_pat_format : exn :=
  ValueError "Invalid PAT format. Token should start with 'sfp_'".
Definition unknown_kpi (kpi_name : string) : exn :=
  ValueError ("Unknown KPI: " ++ kpi_name).

(** ** Subscripts on decoded JSON and on rows *)

(** [obj[key]] with a [str] key. *)
Definition getitem_key (obj : json) (key : string) : exn + json :=
  match obj with
  | JObj members =>
      match dict_get members key with
      | Some v => inr v
      | None => inl KeyError
      end
  | _ => inl TypeError
  end.

(** [obj[0]] *)
Definition getitem_0 (obj : json) : exn + json :=
  match obj with
  | JArr (x :: _) => inr x
  | JArr [] => inl IndexError
  | JStr (String c _) => inr (JStr (String c EmptyString))
  | JStr EmptyString => inl IndexError
  | JObj _ => inl KeyError
  | _ => inl TypeError
  end.

(** [result[i]] on what [fetchone] returned. *)
Definition row_item (result : option tuple_row) (i : nat) : exn + value :=
  match result with
  | None => inl TypeError
  | Some r =>
      match nth_error r i with
      | Some v => inr v
      | None => inl IndexError
      end
  end.

(** [v[:50]]: text and bytes can be sliced, [None] and integers cannot. *)
Definition slice_50 (v : value) : exn + string :=
  match v with
  | VStr s => inr (String.substring 0 50 s)
  | VBytes b => inr (String.substring 0 50 b)
  | _ => inl TypeError
  end.

(** What [json.loads] accepts: a [str], or a [bytes] or [bytearray]. *)
Inductive json_source : Type :=
| FromStr (s : string)
| FromBytes (b : string).

(** The argument check of [json.loads]: for anything else it raises
    [TypeError]. *)
Definition loads_source (v : value) : option json_source :=
  match v with
  | VStr s => Some (FromStr s)
  | VBytes b => Some (FromBytes b)
  | _ => None
  end.

(** Python truth value of what [fetchone] returned. *)
Definition tuple_truthy (result : option tuple_row) : bool :=
  match result with
  | Some (_ :: _) => true
  | _ => false
  end.

Definition dict_truthy (result : option dict_row) : bool :=
  match result with
  | Some (_ :: _) => true
  | _ => false
  end.

(** ** The facade *)

Section Facade.

Context {W : Type}.

(** The driver the facade runs against, and the two functions of the [json]
    module it calls: [json.loads] on a text or on bytes, with the exception
    it raises when it cannot decode them, and
    [json.dumps(data, indent=2, default=str)]. *)
Variable D : Driver W.
Variable json_loads : json_source -> exn + json.
Variable json_dumps : list dict_row -> string.

(** A method body: it runs in a state, returns or raises, and leaves a state
    behind in both cases. *)
Definition M (A : Type) : Type := state W -> (exn + A) * state W.

Definition ret {A : Type} (a : A) : M A := fun s => (inr a, s).

Definition raise {A : Type} (e : exn) : M A := fun s => (inl e, s).

Definition bind {A B : Type} (m : M A) (k : A -> M B) : M B :=
  fun s =>
    match m s with
    | (inl e, s') => (inl e, s')
    | (inr a, s') => k a s'
    end.

(** [try: m  except Exception: h] *)
Definition try_except {A : Type} (m : M A) (h : exn -> M A) : M A :=
  fun s =>
    match m s with
    | (inl e, s') => h e s'
    | (inr a, s') => (inr a, s')
    end.

Definition lift {A : Type} (r : exn + A) : M A :=
  match r with
  | inl e => raise e
  | inr a => ret a
  end.

Notation "x <- m ;; k" := (bind m (fun x => k))
  (at level 61, m at next level, right associativity).
Notation "m ;;; k" := (bind m (fun _ => k))
  (at level 61, right associativity).

Definition get_self : M manager := fun s => (inr (self s), s).

Definition set_dashboard_conn (c : conn) : M unit :=
  fun s =>
    (inr tt,
     mkState {| dashboard_conn := Some c; cortex_conn := cortex_conn (self s) |}
             (world s) (trace s)).

Definition set_cortex_conn (c : conn) : M unit :=
  fun s =>
    (inr tt,
     mkState {| dashboard_conn := dashboard_conn (self s); cortex_conn := Some c |}
             (world s) (trace s)).

(** A call into the driver: logged, run on the world, its exception wrapped. *)
Definition call {A : Type} (ev : event) (f : W -> (driver_exn + A) * W) : M A :=
  fun s =>
    let (r, w') := f (world s) in
    let s' := mkState (self s) w' (trace s ++ [ev]) in
    match r with
    | inl e => (inl (DriverError e), s')
    | inr a => (inr a, s')
    end.

Definition connect (a : connect_args) : M conn :=
  call (EvConnect a) (drv_connect D a).
Definition load_key (path : string) (password : option string) : M pkey :=
  call (EvLoadKey path password) (drv_load_key D path password).
Definition new_cursor (c : conn) (k : cursor_class) : M cursor :=
  call (EvCursor c k) (drv_cursor D c k).
Definition execute (cur : cursor) (sql : string) : M unit :=
  call (EvExecute cur sql) (drv_execute D cur sql).
Definition fetchone (cur : cursor) : M (option tuple_row) :=
  call (EvFetchone cur) (drv_fetchone D cur).
Definition fetchone_dict (cur : cursor) : M (option dict_row) :=
  call (EvFetchone cur) (drv_fetchone_dict D cur).
Definition fetchall_dict (cur : cursor) : M (list dict_row) :=
  call (EvFetchall cur) (drv_fetchall_dict D cur).
Definition cursor_close (cur : cursor) : M unit :=
  call (EvCursorClose cur) (drv_cursor_close D cur).
Definition conn_close (c : conn) : M unit :=
  call (EvClose c) (drv_close D c).

(** *** Connecting *)

Definition connect_dashboard_sso
    (account user warehouse database schema role authenticator : string) : M conn :=
  c <- connect {| arg_account := account; arg_user := user;
                  arg_password := None; arg_private_key := None;
                  arg_authenticator := Some authenticator;
                  arg_warehouse := warehouse; arg_database := database;
                  arg_schema := schema; arg_role := role |} ;;
  set_dashboard_conn c ;;;
  ret c.

Definition connect_dashboard_keypair
    (account user private_key_path warehouse database schema role : string)
    (passphrase : option string) : M conn :=
  let password :=
    match passphrase with
    | Some p => if str_truthy p then Some p else None
    | None => None
    end in
  private_key <- load_key private_key_path password ;;
  c <- connect {| arg_account := account; arg_user := user;
                  arg_password := None; arg_private_key := Some private_key;
                  arg_authenticator := None;
                  arg_warehouse := warehouse; arg_database := database;
                  arg_schema := schema; arg_role := role |} ;;
  set_dashboard_conn c ;;;
  ret c.

Definition connect_cortex_pat
    (account user pat warehouse database schema role : string) : M conn :=
  if negb (startswith "sfp_" pat) then raise invalid_pat_format
  else
    c <- connect {| arg_account := account; arg_user := user;
                    arg_password := Some pat; arg_private_key := None;
                    arg_authenticator := Some "snowflake_jwt";
                    arg_warehouse := warehouse; arg_database := database;
                    arg_schema := schema; arg_role := role |} ;;
    set_cortex_conn c ;;;
    ret c.

(** *** Dashboard queries *)

Definition get_dashboard_kpi (kpi_name : string) : M dict_row :=
  me <- get_self ;;
  match dashboard_conn me with
  | None => raise dashboard_not_connected
  | Some c =>
      cur <- new_cursor c DictCursor ;;
      match dict_get queries kpi_name with
      | None => raise (unknown_kpi kpi_name)
      | Some query =>
          if negb (str_truthy query) then raise (unknown_kpi kpi_name)
          else
            execute cur query ;;;
            result <- fetchone_dict cur ;;
            cursor_close cur ;;;
            ret (match result with
                 | Some r => if dict_truthy result then dict r else []
                 | None => []
                 end)
      end
  end.

(** *** Cortex queries *)

Definition query_cortex (user_question model : string) (context : option string)
    : M json :=
  me <- get_self ;;
  match cortex_conn me with
  | None => raise cortex_not_connected
  | Some c =>
      cur <- new_cursor c SnowflakeCursor ;;
      let system_prompt := str_or context default_system_prompt in
      let query := complete_sql model system_prompt user_question in
      execute cur query ;;;
      result <- fetchone cur ;;
      cursor_close cur ;;;
      if tuple_truthy result then
        v <- lift (row_item result 0) ;;
        match loads_source v with
        | Some source =>
            response_json <- lift (json_loads source) ;;
            choices <- lift (getitem_key response_json "choices") ;;
            choice <- lift (getitem_0 choices) ;;
            lift (getitem_key choice "messages")
        | None => raise TypeError
        end
      else ret (JStr no_response)
  end.

Definition query_cortex_with_data (user_question model : string)
    (data_query : option string) : M json :=
  me <- get_self ;;
  match dashboard_conn me, cortex_conn me with
  | Some dc, Some _ =>
      data_context <-
        match data_query with
        | Some q =>
            if str_truthy q then
              cur <- new_cursor dc DictCursor ;;
              execute cur q ;;;
              data <- fetchall_dict cur ;;
              cursor_close cur ;;;
              ret (nl ++ nl ++ "Here is the relevant data:" ++ nl ++ json_dumps data)
            else ret ""
        | None => ret ""
        end ;;
      let enhanced_question := user_question ++ data_context in
      query_cortex enhanced_question model None
  | _, _ => raise both_connections_required
  end.

Definition cortex_search (search_service query : string) (columns : list string)
    (limit : Z) : M (list dict_row) :=
  me <- get_self ;;
  match cortex_conn me with
  | None => raise search_not_connected
  | Some c =>
      cur <- new_cursor c DictCursor ;;
      let query_sql := search_sql search_service query columns limit in
      execute cur query_sql ;;;
      results <- fetchall_dict cur ;;
      cursor_close cur ;;;
      ret (map dict results)
  end.

(** *** Connection management *)

Definition close_all : M unit :=
  me <- get_self ;;
  match dashboard_conn me with
  | Some c => conn_close c
  | None => ret tt
  end ;;;
  me' <- get_self ;;
  match cortex_conn me' with
  | Some c => conn_close c
  | None => ret tt
  end.

Definition test_dashboard_connection : M bool :=
  me <- get_self ;;
  match dashboard_conn me with
  | None => ret false
  | Some c =>
      try_except
        (cur <- new_cursor c SnowflakeCursor ;;
         execute cur "SELECT CURRENT_USER(), CURRENT_ROLE(), CURRENT_WAREHOUSE()" ;;;
         result <- fetchone cur ;;
         lift (row_item result 0) ;;;
         lift (row_item result 1) ;;;
         lift (row_item result 2) ;;;
         cursor_close cur ;;;
         ret true)
        (fun _ => ret false)
  end.

Definition test_cortex_connection : M bool :=
  me <- get_self ;;
  match cortex_conn me with
  | None => ret false
  | Some c =>
      try_except
        (cur <- new_cursor c SnowflakeCursor ;;
         execute cur "SELECT CURRENT_USER(), CURRENT_ROLE()" ;;;
         result <- fetchone cur ;;
         lift (row_item result 0) ;;;
         lift (row_item result 1) ;;;
         execute cur "SELECT SNOWFLAKE.CORTEX.COMPLETE('snowflake-arctic', 'Hello') as test" ;;;
         test_result <- fetchone cur ;;
         v <- lift (row_item test_result 0) ;;
         lift (slice_50 v) ;;;
         cursor_close cur ;;;
         ret true)
        (fun _ => ret false)
  end.

(** *** A caller's session: a sequence of calls on one manager *)

Inductive api_call : Type :=
| ConnectDashboardSso (account user warehouse database schema role authenticator : string)
| ConnectDashboardKeypair (account user private_key_path warehouse database schema role : string)
    (passphrase : option string)
| ConnectCortexPat (account user pat warehouse database schema role : string)
| GetDashboardKpi (kpi_name : string)
| QueryCortex (user_question model : string) (context : option string)
| QueryCortexWithData (user_question model : string) (data_query : option string)
| CortexSearch (search_service query : string) (columns : list string) (limit : Z)
| CloseAll
| TestDashboardConnection
| TestCortexConnection.

Inductive retval : Type :=
| RConn (c : conn)
| RRecord (r : dict_row)
| RText (t : json)
| RRecords (rs : list dict_row)
| RNone
| RBool (b : bool).

Definition fmap {A B : Type} (f : A -> B) (m : M A) : M B :=
  x <- m ;; ret (f x).

Definition perform (c : api_call) : M retval :=
  match c with
  | ConnectDashboardSso a u w d sc r au =>
      fmap RConn (connect_dashboard_sso a u w d sc r au)
  | ConnectDashboardKeypair a u k w d sc r p =>
      fmap RConn (connect_dashboard_keypair a u k w d sc r p)
  | ConnectCortexPat a u p w d sc r =>
      fmap RConn (connect_cortex_pat a u p w d sc r)
  | GetDashboardKpi n => fmap RRecord (get_dashboard_kpi n)
  | QueryCortex q m c => fmap RText (query_cortex q m c)
  | QueryCortexWithData q m dq => fmap RText (query_cortex_with_data q m dq)
  | CortexSearch sv q cols l => fmap RRecords (cortex_search sv q cols l)
  | CloseAll => fmap (fun _ => RNone) close_all
  | TestDashboardConnection => fmap RBool test_dashboard_connection
  | TestCortexConnection => fmap RBool test_cortex_connection
  end.

(** The caller goes on after an exception; the history pairs every call with
    what it returned or raised. *)
Fixpoint run_calls (cs : list api_call) (s : state W)
    : list (api_call * (exn + retval)) * state W :=
  match cs with
  | [] => ([], s)
  | c :: cs' =>
      let (r, s1) := perform c s in
      let (h, s2) := run_calls cs' s1 in
      ((c, r) :: h, s2)
  end.

Definition dashboard_connect_ok (entry : api_call * (exn + retval)) : bool :=
  match entry with
  | (ConnectDashboardSso _ _ _ _ _ _ _, inr _) => true
  | (ConnectDashboardKeypair _ _ _ _ _ _ _ _, inr _) => true
  | _ => false
  end.

Definition cortex_connect_ok (entry : api_call * (exn + retval)) : bool :=
  match entry with
  | (ConnectCortexPat _ _ _ _ _ _ _, inr _) => true
  | _ => false
  end.


(** A fresh manager in a world [w]. *)
Definition fresh (w : W) : state W := mkState init w [].

(** *** The demonstration routine and the module's entry point *)

(** [os.environ], as far as [os.getenv] reads it. *)
Definition environ : Type := string -> option string.

(** [os.getenv(var, default)] *)
Definition getenv_default (env : environ) (var default : string) : string :=
  match env var with
  | Some v => v
  | None => default
  end.

Definition required_vars : list string :=
  ["SNOWFLAKE_ACCOUNT"; "SNOWFLAKE_USER"; "CORTEX_PAT"].

(** [[var for var in required_vars if not os.getenv(var)]] *)
Definition missing_vars (env : environ) : list string :=
  filter (fun var =>
            match env var with
            | Some v => negb (str_truthy v)
            | None => true
            end) required_vars.

(** [example_usage], with what its four [os.getenv] reads return as
    arguments: [SNOWFLAKE_ACCOUNT], [SNOWFLAKE_USER], [CORTEX_USER] after its
    default, and [CORTEX_PAT].  The two connects and the two tests stand
    outside any [try]; each of the three queries is wrapped in one. *)
Definition example_usage (account user cortex_user pat : string) : M unit :=
  connect_dashboard_sso account user "COMPUTE_WH" "ANALYTICS_DB" "PUBLIC"
    "ANALYST_ROLE" default_authenticator ;;;
  test_dashboard_connection ;;;
  connect_cortex_pat account cortex_user pat "CORTEX_WH" "ANALYTICS_DB"
    "CORTEX" "CORTEX_ROLE" ;;;
  test_cortex_connection ;;;
  try_except
    (get_dashboard_kpi "portfolio_overview" ;;; ret tt)
    (fun _ => ret tt) ;;;
  try_except
    (query_cortex "What are the top 3 strategies to reduce delinquency rates?"
       "snowflake-arctic" None ;;; ret tt)
    (fun _ => ret tt) ;;;
  try_except
    (query_cortex_with_data "Analyze the delinquency trends and suggest actions"
       "snowflake-arctic" (Some "SELECT * FROM delinquency_summary LIMIT 10") ;;;
     ret tt)
    (fun _ => ret tt) ;;;
  close_all.

(** The [if __name__ == "__main__"] block: the demonstration runs only when
    none of the required variables is missing, and then each of them is set. *)
Definition main (env : environ) : M unit :=
  match missing_vars env with
  | _ :: _ => ret tt
  | [] =>
      match env "SNOWFLAKE_ACCOUNT", env "SNOWFLAKE_USER", env "CORTEX_PAT" with
      | Some account, Some user, Some pat =>
          example_usage account user
            (getenv_default env "CORTEX_USER" "CORTEX_USER") pat
      | _, _, _ => ret tt
      end
  end.

End Facade.

(** ** Drivers to run the facade against *)

(** A scripted stand-in for the driver, as a test double would be: every call
    succeeds whatever was closed before, and the fetch calls hand out the
    rows of the script. *)
Record script : Type := mkScript {
  tuple_rows : list tuple_row;
  dict_rows : list dict_row
}.

Definition mock (sc : script) : Driver unit :=
  {| drv_connect := fun _ w => (inr 1, w);
     drv_load_key := fun _ _ w => (inr 1, w);
     drv_cursor := fun c _ w => (inr c, w);
     drv_execute := fun _ _ w => (inr tt, w);
     drv_fetchone := fun _ w => (inr (hd_error (tuple_rows sc)), w);
     drv_fetchone_dict := fun _ w => (inr (hd_error (dict_rows sc)), w);
     drv_fetchall_dict := fun _ w => (inr (dict_rows sc), w);
     drv_cursor_close := fun _ w => (inr tt, w);
     drv_close := fun _ w => (inr tt, w) |}.

(** A driver that keeps track of the connections it closed.  It refuses a
    cursor on a closed connection; [reclose_raises] says whether closing a
    closed connection again raises or is accepted. *)
Record db : Type := mkDb {
  next_handle : nat;
  closed_conns : list conn
}.

Definition is_closed (c : conn) (w : db) : bool :=
  existsb (Nat.eqb c) (closed_conns w).

Definition tracking (reclose_raises : bool) (sc : script) : Driver db :=
  {| drv_connect := fun _ w =>
       (inr (next_handle w), mkDb (S (next_handle w)) (closed_conns w));
     drv_load_key := fun _ _ w => (inr 1, w);
     drv_cursor := fun c _ w =>
       if is_closed c w then (inl "Connection is closed", w) else (inr c, w);
     drv_execute := fun cur _ w =>
       if is_closed cur w then (inl "Connection is closed", w) else (inr tt, w);
     drv_fetchone := fun _ w => (inr (hd_error (tuple_rows sc)), w);
     drv_fetchone_dict := fun _ w => (inr (hd_error (dict_rows sc)), w);
     drv_fetchall_dict := fun _ w => (inr (dict_rows sc), w);
     drv_cursor_close := fun _ w => (inr tt, w);
     drv_close := fun c w =>
       if is_closed c w && reclose_raises
       then (inl "Connection is already closed", w)
       else (inr tt, mkDb (next_handle w) (c :: closed_conns w)) |}.

Definition empty_db : db := mkDb 1 [].

(** [json.loads] and [json.dumps] for the runs below, none of which gets as
    far as decoding a response: a decoder that rejects every text and an
    encoder that writes the empty array. *)
Definition loads_stub (source : json_source) : exn + json := inl JSONDecodeError.
Definition dumps_stub (data : list dict_row) : string := "[]".

(** Eight search hits, ranked by the service. *)
Definition hit (n : Z) : dict_row := [("title", VStr "doc"); ("score", VInt n)].

Definition eight_hits : list dict_row :=
  [hit 8; hit 7; hit 6; hit 5; hit 4; hit 3; hit 2; hit 1].

Definition overview_row : dict_row :=
  [("total_loans", VInt 42); ("total_upb", VInt 1000)].

(** Test doubles: one that answers a search with all eight hits, one that
    answers with the first five, one with a single KPI row, one with no row
    at all. *)
Definition eight_mock : Driver unit := mock (mkScript [] eight_hits).
Definition five_mock : Driver unit := mock (mkScript [] (firstn 5 eight_hits)).
Definition kpi_mock : Driver unit := mock (mkScript [] [overview_row]).
Definition empty_mock : Driver unit := mock (mkScript [] []).

(** States reached by connecting on a fresh manager. *)
Definition with_dashboard {W : Type} (D : Driver W) (w : W) : state W :=
  snd (connect_dashboard_sso D "xy12345.us-east-1" "analyst@example.com"
         "COMPUTE_WH" "ANALYTICS_DB" "PUBLIC" "ANALYST_ROLE"
         default_authenticator (fresh w)).

Definition with_cortex {W : Type} (D : Driver W) (s : state W) : state W :=
  snd (connect_cortex_pat D "xy12345.us-east-1" "CORTEX_USER" "sfp_abc123"
         "CORTEX_WH" "ANALYTICS_DB" "CORTEX" "CORTEX_ROLE" s).

(** A session that connects the Assistant only, asks one question and
    closes. *)
Definition assistant_only : list api_call :=
  [ ConnectCortexPat "xy12345.us-east-1" "CORTEX_USER" "sfp_abc123"
      "CORTEX_WH" "ANALYTICS_DB" "CORTEX" "CORTEX_ROLE";
    QueryCortex "What is the current delinquency rate?" default_model None;
    CloseAll ].

(** ** Notions the further properties are stated with *)

(** The handle a slot holds after a history: that of the last connect for it
    that returned, or what it held at the start. *)
Definition last_dashboard_handle (start : option conn)
    (h : list (api_call * (exn + retval))) : option conn :=
  fold_left
    (fun held_now entry =>
       match entry with
       | (ConnectDashboardSso _ _ _ _ _ _ _, inr (RConn c)) => Some c
       | (ConnectDashboardKeypair _ _ _ _ _ _ _ _, inr (RConn c)) => Some c
       | _ => held_now
       end) h start.

Definition last_cortex_handle (start : option conn)
    (h : list (api_call * (exn + retval))) : option conn :=
  fold_left
    (fun held_now entry =>
       match entry with
       | (ConnectCortexPat _ _ _ _ _ _ _, inr (RConn c)) => Some c
       | _ => held_now
       end) h start.

(** The same world and trace under other slots. *)
Definition with_self {W : Type} (me : manager) (s : state W) : state W :=
  mkState me (world s) (trace s).

(** [m] never reads the slots: under other slots it gives the same result,
    world and trace. *)
Definition blind {W A : Type} (m : @M W A) : Prop :=
  forall me s, m (with_self me s) = (fst (m s), with_self me (snd (m s))).

(** [m] leaves the slots alone, and every driver call it makes satisfies
    [allowed]. *)
Definition confined {W A : Type} (allowed : event -> bool) (m : @M W A) : Prop :=
  forall s,
    self (snd (m s)) = self s /\
    exists evs,
      trace (snd (m s)) = (trace s ++ evs)%list /\ forallb allowed evs = true.

(** [m] always returns. *)
Definition never_raises {W A : Type} (m : @M W A) : Prop :=
  forall s, exists a, fst (m s) = inr a.


(** Neither a connect nor the close of a connection. *)
Definition within_session (ev : event) : bool :=
  negb (is_connect ev || is_close ev).

Definition is_cursor_close (ev : event) : bool :=
  match ev with EvCursorClose _ => true | _ => false end.

(** The keyword arguments [connect_dashboard_sso] passes to the driver. *)
Definition sso_args
    (account user warehouse database schema role authenticator : string)
    : connect_args :=
  {| arg_account := account; arg_user := user;
     arg_password := None; arg_private_key := None;
     arg_authenticator := Some authenticator;
     arg_warehouse := warehouse; arg_database := database;
     arg_schema := schema; arg_role := role |}.

(** The Dashboard connect of [example_usage]. *)
Definition demo_sso_args (account user : string) : connect_args :=
  sso_args account user "COMPUTE_WH" "ANALYTICS_DB" "PUBLIC" "ANALYST_ROLE"
    default_authenticator.

Definition is_connect_call (c : api_call) : bool :=
  match c with
  | ConnectDashboardSso _ _ _ _ _ _ _ => true
  | ConnectDashboardKeypair _ _ _ _ _ _ _ _ => true
  | ConnectCortexPat _ _ _ _ _ _ _ => true
  | _ => false
  end.

Definition is_close_all (c : api_call) : bool :=
  match c with CloseAll => true | _ => false end.

(** Apart from statements, for which [ok] decides, a call within the
    session. *)
Definition submits_only (ok : string -> bool) (ev : event) : bool :=
  match ev with
  | EvExecute _ sql => ok sql
  | _ => within_session ev
  end.

(** One of the statements of the registry. *)
Definition registered_statement (sql : string) : bool :=
  existsb (fun entry => String.eqb sql (snd entry)) queries.

(** The password [connect_dashboard_keypair] hands to the key loader. *)
Definition key_password (passphrase : option string) : option string :=
  match passphrase with
  | Some p => if str_truthy p then Some p else None
  | None => None
  end.

(** A test double on which chosen calls raise. *)
Record faults : Type := mkFaults {
  fail_key : bool;
  fail_execute : bool;
  fail_fetch : bool
}.

Definition faulty (f : faults) (sc : script) : Driver unit :=
  {| drv_connect := fun _ w => (inr 1, w);
     drv_load_key := fun _ _ w =>
       if fail_key f then (inl "Could not deserialize key data", w)
       else (inr 1, w);
     drv_cursor := fun c _ w => (inr c, w);
     drv_execute := fun _ _ w =>
       if fail_execute f then (inl "SQL compilation error", w) else (inr tt, w);
     drv_fetchone := fun _ w => (inr (hd_error (tuple_rows sc)), w);
     drv_fetchone_dict := fun _ w => (inr (hd_error (dict_rows sc)), w);
     drv_fetchall_dict := fun _ w =>
       if fail_fetch f then (inl "Result set expired", w)
       else (inr (dict_rows sc), w);
     drv_cursor_close := fun _ w => (inr tt, w);
     drv_close := fun _ w => (inr tt, w) |}.

(** The text of a completion row, its quotes left out, and a decoder that
    knows it. *)
Definition sample_text : string := "{choices: [{messages: All good}]}".

Definition sample_response : json :=
  JObj [("choices",
         JArr [JObj [("messages", JStr "All good"); ("finish", JStr "stop")];
               JObj [("messages", JStr "Second")]]);
        ("usage", JNum 12)].

Definition loads_sample (source : json_source) : exn + json :=
  match source with
  | FromStr text | FromBytes text =>
      if String.eqb text sample_text then inr sample_response
      else inl JSONDecodeError
  end.

Definition answer_mock : Driver unit :=
  mock (mkScript [[VStr sample_text; VInt 1]] [overview_row]).

Definition null_mock : Driver unit :=
  mock (mkScript [[VNone]] []).

(** A test double that answers the identity statement, and one whose rows
    are a column short of it. *)
Definition identity_mock : Driver unit :=
  mock (mkScript [[VStr "ANALYST"; VStr "ANALYST_ROLE"; VStr "COMPUTE_WH"]] []).

Definition short_mock : Driver unit :=
  mock (mkScript [[VStr "ANALYST"; VStr "ANALYST_ROLE"]] []).

(** A test double whose rows start with a binary column. *)
Definition bytes_mock : Driver unit :=
  mock (mkScript [[VBytes sample_text; VStr "ANALYST_ROLE"]] []).

(** An environment with the three required variables set. *)
Definition demo_env (pat : string) : environ :=
  fun var =>
    if String.eqb var "SNOWFLAKE_ACCOUNT" then Some "xy12345.us-east-1"
    else if String.eqb var "SNOWFLAKE_USER" then Some "analyst@example.com"
    else if String.eqb var "CORTEX_PAT" then Some pat
    else None.

(** ** Properties of the facade, for every driver *)

Section Properties.

Context {W : Type}.
Variable D : Driver W.
Variable json_loads : json_source -> exn + json.
Variable json_dumps : list dict_row -> string.

(** *** Notions the properties are stated with *)

(** [m] leaves both slots as they were, whether it returns or raises. *)
Definition keeps_self {A : Type} (m : M A) : Prop :=
  forall s : state W, self (snd (m s)) = self s.

(** [m] only appends to the trace. *)
Definition grows {A : Type} (m : M A) : Prop :=
  forall s : state W, exists evs, trace (snd (m s)) = (trace s ++ evs)%list.

(** No Dashboard connect of the history returned. *)
Definition no_dashboard_connect (h : list (api_call * (exn + retval))) : bool :=
  forallb (fun entry => negb (dashboard_connect_ok entry)) h.

(** No Assistant connect of the history returned. *)
Definition no_cortex_connect (h : list (api_call * (exn + retval))) : bool :=
  forallb (fun entry => negb (cortex_connect_ok entry)) h.

(** The keyword arguments [connect_cortex_pat] passes to the driver. *)
Definition pat_args (account user pat warehouse database schema role : string)
    : connect_args :=
  {| arg_account := account; arg_user := user;
     arg_password := Some pat; arg_private_key := None;
     arg_authenticator := Some "snowflake_jwt";
     arg_warehouse := warehouse; arg_database := database;
     arg_schema := schema; arg_role := role |}.


Lemma keeps_ret {A : Type} (a : A) : keeps_self (ret a).
Proof. intros s. reflexivity. Qed.

Lemma keeps_raise {A : Type} (e : exn) : keeps_self (@raise W A e).
Proof. intros s. reflexivity. Qed.

Lemma keeps_lift {A : Type} (r : exn + A) : keeps_self (@lift W A r).
Proof. destruct r; intros s; reflexivity. Qed.

Lemma keeps_get_self : keeps_self (@get_self W).
Proof. intros s. reflexivity. Qed.

Lemma keeps_call {A : Type} (ev : event) (f : W -> (driver_exn + A) * W) :
  keeps_self (call ev f).
Proof.
  intros s. unfold call. destruct (f (world s)) as [[e | a] w']; reflexivity.
Qed.

Lemma keeps_bind {A B : Type} (m : M A) (k : A -> M B) :
  keeps_self m -> (forall a, keeps_self (k a)) -> keeps_self (bind m k).
Proof.
  intros Hm Hk s. unfold bind. specialize (Hm s).
  destruct (m s) as [[e | a] s1]; simpl in *.
  - exact Hm.
  - rewrite Hk. exact Hm.
Qed.

Lemma keeps_try {A : Type} (m : M A) (h : exn -> M A) :
  keeps_self m -> (forall e, keeps_self (h e)) -> keeps_self (try_except m h).
Proof.
  intros Hm Hh s. unfold try_except. specialize (Hm s).
  destruct (m s) as [[e | a] s1]; simpl in *.
  - rewrite Hh. exact Hm.
  - exact Hm.
Qed.

Ltac keeps :=
  unfold fmap, connect, load_key, new_cursor, execute, fetchone, fetchone_dict,
    fetchall_dict, cursor_close, conn_close;
  repeat first
    [ apply keeps_ret | apply keeps_raise | apply keeps_lift
    | apply keeps_get_self | apply keeps_call
    | apply keeps_bind; [ | intros ]
    | apply keeps_try; [ | intros ]
    | match goal with
      | |- keeps_self (match ?x with _ => _ end) => destruct x
      | |- keeps_self (let _ := _ in _) => cbv zeta
      end ].

Lemma get_dashboard_kpi_keeps kpi_name : keeps_self (get_dashboard_kpi D kpi_name).
Proof. unfold get_dashboard_kpi. keeps. Qed.

Lemma query_cortex_keeps q model context :
  keeps_self (query_cortex D json_loads q model context).
Proof. unfold query_cortex. keeps. Qed.

Lemma query_cortex_with_data_keeps q model data_query :
  keeps_self (query_cortex_with_data D json_loads json_dumps q model data_query).
Proof.
  unfold query_cortex_with_data. keeps; apply query_cortex_keeps.
Qed.

Lemma cortex_search_keeps sv q cols limit :
  keeps_self (cortex_search D sv q cols limit).
Proof. unfold cortex_search. keeps. Qed.

Lemma close_all_keeps : keeps_self (close_all D).
Proof. unfold close_all. keeps. Qed.

Lemma test_dashboard_connection_keeps : keeps_self (test_dashboard_connection D).
Proof. unfold test_dashboard_connection. keeps. Qed.

Lemma test_cortex_connection_keeps : keeps_self (test_cortex_connection D).
Proof. unfold test_cortex_connection. keeps. Qed.

Lemma fmap_self {A B : Type} (f : A -> B) (m : M A) (s : state W) :
  self (snd (fmap f m s)) = self (snd (m s)).
Proof.
  unfold fmap, bind, ret. destruct (m s) as [[e | a] s1]; reflexivity.
Qed.

Lemma fmap_result {A B : Type} (f : A -> B) (m : M A) (s : state W) :
  fst (fmap f m s) =
  match fst (m s) with inl e => inl e | inr a => inr (f a) end.
Proof.
  unfold fmap, bind, ret. destruct (m s) as [[e | a] s1]; reflexivity.
Qed.

(** What a connect leaves in the slots: the new handle in its own slot when
    it returns, nothing new when it raises. *)
Lemma connect_dashboard_sso_slots a u w d sc r au (s : state W) :
  match fst (connect_dashboard_sso D a u w d sc r au s) with
  | inr c =>
      self (snd (connect_dashboard_sso D a u w d sc r au s)) =
      mkManager (Some c) (cortex_conn (self s))
  | inl _ => self (snd (connect_dashboard_sso D a u w d sc r au s)) = self s
  end.
Proof.
  unfold connect_dashboard_sso, connect, bind, call, set_dashboard_conn, ret.
  destruct (drv_connect D _ (world s)) as [[e | c] w']; reflexivity.
Qed.

Lemma connect_dashboard_keypair_slots a u k w d sc r p (s : state W) :
  match fst (connect_dashboard_keypair D a u k w d sc r p s) with
  | inr c =>
      self (snd (connect_dashboard_keypair D a u k w d sc r p s)) =
      mkManager (Some c) (cortex_conn (self s))
  | inl _ => self (snd (connect_dashboard_keypair D a u k w d sc r p s)) = self s
  end.
Proof.
  unfold connect_dashboard_keypair, load_key, connect, bind, call,
    set_dashboard_conn, ret.
  destruct (drv_load_key D _ _ (world s)) as [[e | key] w1]; simpl; [reflexivity|].
  destruct (drv_connect D _ w1) as [[e | c] w2]; reflexivity.
Qed.

Lemma connect_cortex_pat_slots a u pat w d sc r (s : state W) :
  match fst (connect_cortex_pat D a u pat w d sc r s) with
  | inr c =>
      self (snd (connect_cortex_pat D a u pat w d sc r s)) =
      mkManager (dashboard_conn (self s)) (Some c)
  | inl _ => self (snd (connect_cortex_pat D a u pat w d sc r s)) = self s
  end.
Proof.
  unfold connect_cortex_pat, connect, bind, call, set_cortex_conn, ret, raise.
  destruct (negb (startswith "sfp_" pat)); simpl; [reflexivity|].
  destruct (drv_connect D _ (world s)) as [[e | c] w']; reflexivity.
Qed.

(** A call changes the Dashboard slot only by a Dashboard connect that
    returns, and the Assistant slot only by a PAT connect that returns. *)
Lemma perform_dashboard_slot (c : api_call) (s : state W) :
  dashboard_connect_ok (c, fst (perform D json_loads json_dumps c s)) = false ->
  dashboard_conn (self (snd (perform D json_loads json_dumps c s))) =
  dashboard_conn (self s).
Proof.
  destruct c; simpl perform; rewrite fmap_self, fmap_result; intros H.
  - pose proof (connect_dashboard_sso_slots account user warehouse database
                  schema role authenticator s) as E.
    destruct (fst (connect_dashboard_sso D _ _ _ _ _ _ _ s)); [|discriminate H].
    now rewrite E.
  - pose proof (connect_dashboard_keypair_slots account user private_key_path
                  warehouse database schema role passphrase s) as E.
    destruct (fst (connect_dashboard_keypair D _ _ _ _ _ _ _ _ s)); [|discriminate H].
    now rewrite E.
  - pose proof (connect_cortex_pat_slots account user pat warehouse database
                  schema role s) as E.
    destruct (fst (connect_cortex_pat D _ _ _ _ _ _ _ s)); now rewrite E.
  - now rewrite get_dashboard_kpi_keeps.
  - now rewrite query_cortex_keeps.
  - now rewrite query_cortex_with_data_keeps.
  - now rewrite cortex_search_keeps.
  - now rewrite close_all_keeps.
  - now rewrite test_dashboard_connection_keeps.
  - now rewrite test_cortex_connection_keeps.
Qed.

Lemma perform_cortex_slot (c : api_call) (s : state W) :
  cortex_connect_ok (c, fst (perform D json_loads json_dumps c s)) = false ->
  cortex_conn (self (snd (perform D json_loads json_dumps c s))) =
  cortex_conn (self s).
Proof.
  destruct c; simpl perform; rewrite fmap_self, fmap_result; intros H.
  - pose proof (connect_dashboard_sso_slots account user warehouse database
                  schema role authenticator s) as E.
    destruct (fst (connect_dashboard_sso D _ _ _ _ _ _ _ s)); now rewrite E.
  - pose proof (connect_dashboard_keypair_slots account user private_key_path
                  warehouse database schema role passphrase s) as E.
    destruct (fst (connect_dashboard_keypair D _ _ _ _ _ _ _ _ s)); now rewrite E.
  - pose proof (connect_cortex_pat_slots account user pat warehouse database
                  schema role s) as E.
    destruct (fst (connect_cortex_pat D _ _ _ _ _ _ _ s)); [|discriminate H].
    now rewrite E.
  - now rewrite get_dashboard_kpi_keeps.
  - now rewrite query_cortex_keeps.
  - now rewrite query_cortex_with_data_keeps.
  - now rewrite cortex_search_keeps.
  - now rewrite close_all_keeps.
  - now rewrite test_dashboard_connection_keeps.
  - now rewrite test_cortex_connection_keeps.
Qed.

Lemma run_calls_cons (c : api_call) (cs : list api_call) (s : state W) :
  run_calls D json_loads json_dumps (c :: cs) s =
  ((c, fst (perform D json_loads json_dumps c s))
     :: fst (run_calls D json_loads json_dumps cs
               (snd (perform D json_loads json_dumps c s))),
   snd (run_calls D json_loads json_dumps cs
          (snd (perform D json_loads json_dumps c s)))).
Proof.
  simpl. destruct (perform D json_loads json_dumps c s) as [r s1]. simpl.
  destruct (run_calls D json_loads json_dumps cs s1) as [h s2]. reflexivity.
Qed.

Lemma dashboard_slot_until_connect (cs : list api_call) (s : state W) :
  no_dashboard_connect (fst (run_calls D json_loads json_dumps cs s)) = true ->
  dashboard_conn (self (snd (run_calls D json_loads json_dumps cs s))) =
  dashboard_conn (self s).
Proof.
  revert s. induction cs as [|c cs IH]; intros s H.
  - reflexivity.
  - rewrite run_calls_cons in *. simpl in *.
    apply andb_prop in H. destruct H as [Hc Hrest].
    rewrite IH by exact Hrest.
    apply perform_dashboard_slot. now apply negb_true_iff.
Qed.

Lemma cortex_slot_until_connect (cs : list api_call) (s : state W) :
  no_cortex_connect (fst (run_calls D json_loads json_dumps cs s)) = true ->
  cortex_conn (self (snd (run_calls D json_loads json_dumps cs s))) =
  cortex_conn (self s).
Proof.
  revert s. induction cs as [|c cs IH]; intros s H.
  - reflexivity.
  - rewrite run_calls_cons in *. simpl in *.
    apply andb_prop in H. destruct H as [Hc Hrest].
    rewrite IH by exact Hrest.
    apply perform_cortex_slot. now apply negb_true_iff.
Qed.

(** *** The guards *)

Lemma get_dashboard_kpi_guard (kpi_name : string) (s : state W) :
  dashboard_conn (self s) = None ->
  get_dashboard_kpi D kpi_name s = (inl dashboard_not_connected, s).
Proof.
  intros H. unfold get_dashboard_kpi, bind, get_self. now rewrite H.
Qed.

Lemma query_cortex_guard (q model : string) (context : option string) (s : state W) :
  cortex_conn (self s) = None ->
  query_cortex D json_loads q model context s = (inl cortex_not_connected, s).
Proof.
  intros H. unfold query_cortex, bind, get_self. now rewrite H.
Qed.

Lemma cortex_search_guard (sv q : string) (cols : list string) (limit : Z)
    (s : state W) :
  cortex_conn (self s) = None ->
  cortex_search D sv q cols limit s = (inl search_not_connected, s).
Proof.
  intros H. unfold cortex_search, bind, get_self. now rewrite H.
Qed.

Lemma query_cortex_with_data_guard (q model : string) (data_query : option string)
    (s : state W) :
  dashboard_conn (self s) = None \/ cortex_conn (self s) = None ->
  query_cortex_with_data D json_loads json_dumps q model data_query s =
  (inl both_connections_required, s).
Proof.
  intros H. unfold query_cortex_with_data, bind, get_self.
  destruct H as [H | H]; rewrite H; [reflexivity|].
  now destruct (dashboard_conn (self s)).
Qed.

(** *** The registry *)

Lemma outside_registry (kpi_name : string) :
  kpi_name <> "delinquency" -> kpi_name <> "portfolio_overview" ->
  dict_get queries kpi_name = None.
Proof.
  intros H1 H2. unfold queries, dict_get.
  destruct (String.eqb_spec kpi_name "delinquency"); [contradiction|].
  destruct (String.eqb_spec kpi_name "portfolio_overview"); [contradiction|].
  reflexivity.
Qed.

Lemma inside_registry (kpi_name sql : string) :
  dict_get queries kpi_name = Some sql ->
  (kpi_name = "delinquency" /\ sql = delinquency_sql) \/
  (kpi_name = "portfolio_overview" /\ sql = portfolio_overview_sql).
Proof.
  unfold queries, dict_get.
  destruct (String.eqb_spec kpi_name "delinquency") as [E1 | _].
  - intros H. injection H as <-. now left.
  - destruct (String.eqb_spec kpi_name "portfolio_overview") as [E2 | _].
    + intros H. injection H as <-. now right.
    + discriminate.
Qed.

Lemma registered_sql_truthy (kpi_name sql : string) :
  dict_get queries kpi_name = Some sql -> str_truthy sql = true.
Proof.
  intros H. destruct (inside_registry _ _ H) as [[_ ->] | [_ ->]]; reflexivity.
Qed.

(** *** Claims about the guards *)

(** C4. A token that does not begin with [sfp_] makes [connect_cortex_pat]
    raise the invalid-format [ValueError] in the state it was called in, so
    before any call to the driver; a token that begins with [sfp_] takes it to
    exactly one driver call, the connect with the token as password, whose
    outcome decides the result. *)
Theorem connect_cortex_pat_prefix_check
    (account user pat warehouse database schema role : string) (s : state W) :
  (startswith "sfp_" pat = false ->
   connect_cortex_pat D account user pat warehouse database schema role s =
   (inl invalid_pat_format, s)) /\
  (startswith "sfp_" pat = true ->
   connect_cortex_pat D account user pat warehouse database schema role s =
   let args := pat_args account user pat warehouse database schema role in
   match drv_connect D args (world s) with
   | (inl e, w') =>
       (inl (DriverError e), mkState (self s) w' (trace s ++ [EvConnect args])%list)
   | (inr c, w') =>
       (inr c, mkState (mkManager (dashboard_conn (self s)) (Some c)) w'
                       (trace s ++ [EvConnect args])%list)
   end).
Proof.
  unfold connect_cortex_pat. split; intros H; rewrite H; simpl.
  - reflexivity.
  - unfold bind, connect, call, set_cortex_conn, ret, pat_args.
    destruct (drv_connect D _ (world s)) as [[e | c] w']; reflexivity.
Qed.

(** C7. As long as no Dashboard connect of the session has returned,
    [get_dashboard_kpi] raises the not-connected [ConnectionError] for every
    name, registered or not, and leaves the state, trace included, as it was:
    nothing is looked up and nothing reaches the driver. *)
Theorem get_dashboard_kpi_before_connect
    (cs : list api_call) (w : W) (kpi_name : string) :
  no_dashboard_connect
    (fst (run_calls D json_loads json_dumps cs (fresh w))) = true ->
  get_dashboard_kpi D kpi_name
    (snd (run_calls D json_loads json_dumps cs (fresh w))) =
  (inl dashboard_not_connected,
   snd (run_calls D json_loads json_dumps cs (fresh w))).
Proof.
  intros H. apply get_dashboard_kpi_guard.
  now rewrite dashboard_slot_until_connect.
Qed.

(** C8. With the Dashboard slot empty, [query_cortex_with_data] raises the
    both-connections [ConnectionError] whatever [data_query] is and whatever
    the Assistant slot holds, and leaves the state, trace included, as it
    was: no statement is run on either connection. *)
Theorem query_cortex_with_data_without_dashboard
    (user_question model : string) (data_query : option string) (s : state W) :
  dashboard_conn (self s) = None ->
  query_cortex_with_data D json_loads json_dumps user_question model data_query s =
  (inl both_connections_required, s).
Proof.
  intros H. apply query_cortex_with_data_guard. now left.
Qed.

(** C10. When the token does not begin with [sfp_], [connect_cortex_pat]
    raises the invalid-format error and both slots hold what they held
    before the call. *)
Theorem connect_cortex_pat_invalid_keeps_slots
    (account user pat warehouse database schema role : string) (s : state W) :
  startswith "sfp_" pat = false ->
  let out := connect_cortex_pat D account user pat warehouse database schema role s in
  fst out = inl invalid_pat_format /\
  dashboard_conn (self (snd out)) = dashboard_conn (self s) /\
  cortex_conn (self (snd out)) = cortex_conn (self s).
Proof.
  intros H. unfold connect_cortex_pat. rewrite H. simpl. auto.
Qed.

(** C6, as the code has it.  For a name outside the registry and a Dashboard
    slot that holds a connection, [get_dashboard_kpi] always raises, and its
    only call to the driver is the request for a cursor, which comes before
    the lookup: no statement is executed.  The exception is the unknown-KPI
    [ValueError] when the driver hands out the cursor, and the driver's own
    when it refuses. *)
Theorem get_dashboard_kpi_unknown_name
    (kpi_name : string) (c : conn) (s : state W) :
  kpi_name <> "delinquency" -> kpi_name <> "portfolio_overview" ->
  dashboard_conn (self s) = Some c ->
  get_dashboard_kpi D kpi_name s =
  match drv_cursor D c DictCursor (world s) with
  | (inl e, w') =>
      (inl (DriverError e),
       mkState (self s) w' (trace s ++ [EvCursor c DictCursor]))
  | (inr cur, w') =>
      (inl (unknown_kpi kpi_name),
       mkState (self s) w' (trace s ++ [EvCursor c DictCursor]))
  end.
Proof.
  intros H1 H2 Hc.
  unfold get_dashboard_kpi, bind, get_self, new_cursor, call. rewrite Hc.
  rewrite (outside_registry _ H1 H2).
  destruct (drv_cursor D c DictCursor (world s)) as [[e | cur] w1]; reflexivity.
Qed.

(** C9. For a registered name, a Dashboard slot that holds a connection and
    a driver whose calls return, [get_dashboard_kpi] executes the registered
    statement on a [DictCursor], fetches one row, closes the cursor and
    returns that row as a mapping, or the empty mapping when there is no
    row. *)
Theorem get_dashboard_kpi_first_row
    (kpi_name sql : string) (c : conn) (s : state W) (cur : cursor)
    (first : option dict_row) (w1 w2 w3 w4 : W) :
  dict_get queries kpi_name = Some sql ->
  dashboard_conn (self s) = Some c ->
  drv_cursor D c DictCursor (world s) = (inr cur, w1) ->
  drv_execute D cur sql w1 = (inr tt, w2) ->
  drv_fetchone_dict D cur w2 = (inr first, w3) ->
  drv_cursor_close D cur w3 = (inr tt, w4) ->
  get_dashboard_kpi D kpi_name s =
  (inr (match first with Some r => r | None => [] end),
   mkState (self s) w4
     (trace s ++ [EvCursor c DictCursor; EvExecute cur sql;
                  EvFetchone cur; EvCursorClose cur])%list).
Proof.
  intros Hq Hc E1 E2 E3 E4.
  unfold get_dashboard_kpi, bind, get_self, new_cursor, execute, fetchone_dict,
    cursor_close, call, ret.
  rewrite Hc, Hq, (registered_sql_truthy _ _ Hq). simpl.
  rewrite E1. simpl. rewrite E2. simpl. rewrite E3. simpl. rewrite E4. simpl.
  repeat rewrite <- app_assoc. simpl.
  destruct first as [[|kv r]|]; reflexivity.
Qed.

(** C5. With the Assistant slot holding a connection and a driver whose
    calls all return, the fetch returning no row, [query_cortex] returns the
    fallback text, it does not raise. *)
Theorem query_cortex_no_row
    (user_question model : string) (context : option string) (c : conn)
    (s : state W) (cur : cursor) (w1 w2 w3 w4 : W) :
  let sql := complete_sql model (str_or context default_system_prompt) user_question in
  cortex_conn (self s) = Some c ->
  drv_cursor D c SnowflakeCursor (world s) = (inr cur, w1) ->
  drv_execute D cur sql w1 = (inr tt, w2) ->
  drv_fetchone D cur w2 = (inr None, w3) ->
  drv_cursor_close D cur w3 = (inr tt, w4) ->
  query_cortex D json_loads user_question model context s =
  (inr (JStr "I couldn't generate a response. Please try again."),
   mkState (self s) w4
     (trace s ++ [EvCursor c SnowflakeCursor; EvExecute cur sql;
                  EvFetchone cur; EvCursorClose cur])%list).
Proof.
  intros sql Hc E1 E2 E3 E4.
  unfold query_cortex, bind, get_self, new_cursor, execute, fetchone,
    cursor_close, call, ret.
  rewrite Hc. simpl. rewrite E1. simpl. fold sql. rewrite E2. simpl.
  rewrite E3. simpl. rewrite E4. simpl.
  repeat rewrite <- app_assoc. reflexivity.
Qed.

(** *** What reaches the driver *)

Lemma grows_ret {A : Type} (a : A) : grows (ret a).
Proof. intros s. exists []. simpl. now rewrite app_nil_r. Qed.

Lemma grows_raise {A : Type} (e : exn) : grows (@raise W A e).
Proof. intros s. exists []. simpl. now rewrite app_nil_r. Qed.

Lemma grows_lift {A : Type} (r : exn + A) : grows (@lift W A r).
Proof. destruct r; [apply grows_raise | apply grows_ret]. Qed.

Lemma grows_get_self : grows (@get_self W).
Proof. intros s. exists []. simpl. now rewrite app_nil_r. Qed.

Lemma grows_call {A : Type} (ev : event) (f : W -> (driver_exn + A) * W) :
  grows (call ev f).
Proof.
  intros s. exists [ev]. unfold call.
  destruct (f (world s)) as [[e | a] w']; reflexivity.
Qed.

Lemma grows_bind {A B : Type} (m : M A) (k : A -> M B) :
  grows m -> (forall a, grows (k a)) -> grows (bind m k).
Proof.
  intros Hm Hk s. unfold bind. destruct (Hm s) as [evs E].
  destruct (m s) as [[e | a] s1]; simpl in *.
  - now exists evs.
  - destruct (Hk a s1) as [evs' E']. exists (evs ++ evs')%list.
    now rewrite E', E, app_assoc.
Qed.

Ltac grows_tac :=
  unfold connect, load_key, new_cursor, execute, fetchone, fetchone_dict,
    fetchall_dict, cursor_close, conn_close;
  repeat first
    [ apply grows_ret | apply grows_raise | apply grows_lift
    | apply grows_get_self | apply grows_call
    | apply grows_bind; [ | intros ]
    | match goal with
      | |- grows (match ?x with _ => _ end) => destruct x
      | |- grows (let _ := _ in _) => cbv zeta
      end ].

Lemma query_cortex_grows q model context :
  grows (query_cortex D json_loads q model context).
Proof. unfold query_cortex. grows_tac. Qed.

Lemma bind_get_self {A : Type} (k : manager -> M A) (s : state W) :
  bind get_self k s = k (self s) s.
Proof. reflexivity. Qed.

(** When the first step is a driver call, its event is the first new entry
    of the trace, whatever the driver answers. *)
Lemma first_call {A B : Type} (ev : event) (f : W -> (driver_exn + A) * W)
    (k : A -> M B) :
  (forall a, grows (k a)) ->
  forall s, exists evs, trace (snd (bind (call ev f) k s)) = (trace s ++ ev :: evs)%list.
Proof.
  intros Hk s. unfold bind, call.
  destruct (f (world s)) as [[e | a] w']; simpl.
  - now exists [].
  - destruct (Hk a (mkState (self s) w' (trace s ++ [ev]))) as [evs E].
    exists evs. rewrite E. simpl. now rewrite <- app_assoc.
Qed.

Lemma get_dashboard_kpi_asks_driver (kpi_name : string) (c : conn) (s : state W) :
  dashboard_conn (self s) = Some c ->
  exists evs,
    trace (snd (get_dashboard_kpi D kpi_name s)) =
    (trace s ++ EvCursor c DictCursor :: evs)%list.
Proof.
  intros H. unfold get_dashboard_kpi. rewrite bind_get_self, H.
  apply first_call. intros cur. grows_tac.
Qed.

Lemma query_cortex_asks_driver (q model : string) (context : option string)
    (c : conn) (s : state W) :
  cortex_conn (self s) = Some c ->
  exists evs,
    trace (snd (query_cortex D json_loads q model context s)) =
    (trace s ++ EvCursor c SnowflakeCursor :: evs)%list.
Proof.
  intros H. unfold query_cortex. rewrite bind_get_self, H.
  apply first_call. intros cur. grows_tac.
Qed.

Lemma cortex_search_asks_driver (sv q : string) (cols : list string) (limit : Z)
    (c : conn) (s : state W) :
  cortex_conn (self s) = Some c ->
  exists evs,
    trace (snd (cortex_search D sv q cols limit s)) =
    (trace s ++ EvCursor c DictCursor :: evs)%list.
Proof.
  intros H. unfold cortex_search. rewrite bind_get_self, H.
  apply first_call. intros cur. grows_tac.
Qed.

Lemma bind_first {A B : Type} (ev : event) (m : M A) (k : A -> M B) :
  (forall s, exists evs, trace (snd (m s)) = (trace s ++ ev :: evs)%list) ->
  (forall a, grows (k a)) ->
  forall s, exists evs, trace (snd (bind m k s)) = (trace s ++ ev :: evs)%list.
Proof.
  intros Hm Hk s. unfold bind. destruct (Hm s) as [evs E].
  destruct (m s) as [[e | a] s1]; simpl in *.
  - now exists evs.
  - destruct (Hk a s1) as [evs' E']. exists (evs ++ evs')%list.
    rewrite E', E, <- app_assoc. reflexivity.
Qed.

Lemma query_cortex_with_data_asks_driver (q model : string)
    (data_query : option string) (dc cc : conn) (s : state W) :
  dashboard_conn (self s) = Some dc ->
  cortex_conn (self s) = Some cc ->
  exists ev evs,
    trace (snd (query_cortex_with_data D json_loads json_dumps q model
                  data_query s)) = (trace s ++ ev :: evs)%list /\
    (ev = EvCursor dc DictCursor \/ ev = EvCursor cc SnowflakeCursor).
Proof.
  intros Hd Hc. unfold query_cortex_with_data. rewrite bind_get_self, Hd, Hc.
  destruct data_query as [dq|]; [destruct (str_truthy dq)|].
  - exists (EvCursor dc DictCursor).
    destruct (bind_first (EvCursor dc DictCursor)
                (bind (new_cursor D dc DictCursor) (fun cur =>
                   bind (execute D cur dq) (fun _ =>
                     bind (fetchall_dict D cur) (fun data =>
                       bind (cursor_close D cur) (fun _ =>
                         ret (nl ++ nl ++ "Here is the relevant data:" ++ nl
                              ++ json_dumps data))))))
                (fun data_context =>
                   query_cortex D json_loads (q ++ data_context) model None))
      with (s := s) as [evs E].
    + apply first_call. intros cur. grows_tac.
    + intros text. apply query_cortex_grows.
    + exists evs. split; [exact E | now left].
  - destruct (query_cortex_asks_driver (q ++ "") model None cc s Hc) as [evs E].
    exists (EvCursor cc SnowflakeCursor), evs. split; [exact E | now right].
  - destruct (query_cortex_asks_driver (q ++ "") model None cc s Hc) as [evs E].
    exists (EvCursor cc SnowflakeCursor), evs. split; [exact E | now right].
Qed.

(** *** Search *)

(** C1, as the code has it.  [cortex_search] writes [limit] into the
    statement and returns every row the driver fetched for it, in the
    driver's order: the result is as long as what the service sent, so it
    stays within [limit] exactly when the service did. *)
Theorem cortex_search_returns_fetched_rows
    (search_service query : string) (columns : list string) (limit : Z)
    (c : conn) (s : state W) (cur : cursor) (rows : list dict_row)
    (w1 w2 w3 w4 : W) :
  let sql := search_sql search_service query columns limit in
  cortex_conn (self s) = Some c ->
  drv_cursor D c DictCursor (world s) = (inr cur, w1) ->
  drv_execute D cur sql w1 = (inr tt, w2) ->
  drv_fetchall_dict D cur w2 = (inr rows, w3) ->
  drv_cursor_close D cur w3 = (inr tt, w4) ->
  cortex_search D search_service query columns limit s =
  (inr rows,
   mkState (self s) w4
     (trace s ++ [EvCursor c DictCursor; EvExecute cur sql;
                  EvFetchall cur; EvCursorClose cur])%list) /\
  (forall rs, fst (cortex_search D search_service query columns limit s) = inr rs ->
     (Z.of_nat (List.length rs) <= limit <-> Z.of_nat (List.length rows) <= limit)%Z).
Proof.
  intros sql Hc E1 E2 E3 E4.
  assert (R : cortex_search D search_service query columns limit s =
    (inr rows,
     mkState (self s) w4
       (trace s ++ [EvCursor c DictCursor; EvExecute cur sql;
                    EvFetchall cur; EvCursorClose cur])%list)).
  { unfold cortex_search, bind, get_self, new_cursor, execute, fetchall_dict,
      cursor_close, call, ret.
    rewrite Hc. simpl. rewrite E1. simpl. fold sql. rewrite E2. simpl.
    rewrite E3. simpl. rewrite E4. simpl.
    repeat rewrite <- app_assoc. simpl.
    unfold dict. now rewrite map_id. }
  split; [exact R|].
  intros rs Hrs. rewrite R in Hrs. simpl in Hrs. injection Hrs as <-.
  apply iff_refl.
Qed.

(** *** Closing *)






(** *** The connection-state invariant *)

(** When the driver refuses the cursor, the query ends there with the
    driver's exception. *)
Lemma get_dashboard_kpi_refused (kpi_name : string) (c : conn) (s : state W)
    (e : driver_exn) (w' : W) :
  dashboard_conn (self s) = Some c ->
  drv_cursor D c DictCursor (world s) = (inl e, w') ->
  get_dashboard_kpi D kpi_name s =
  (inl (DriverError e), mkState (self s) w' (trace s ++ [EvCursor c DictCursor])).
Proof.
  intros Hc E. unfold get_dashboard_kpi. rewrite bind_get_self, Hc.
  unfold bind, new_cursor, call. now rewrite E.
Qed.

Lemma query_cortex_refused (q model : string) (context : option string)
    (c : conn) (s : state W) (e : driver_exn) (w' : W) :
  cortex_conn (self s) = Some c ->
  drv_cursor D c SnowflakeCursor (world s) = (inl e, w') ->
  query_cortex D json_loads q model context s =
  (inl (DriverError e),
   mkState (self s) w' (trace s ++ [EvCursor c SnowflakeCursor])).
Proof.
  intros Hc E. unfold query_cortex. rewrite bind_get_self, Hc.
  unfold bind, new_cursor, call. now rewrite E.
Qed.

Lemma cortex_search_refused (sv q : string) (cols : list string) (limit : Z)
    (c : conn) (s : state W) (e : driver_exn) (w' : W) :
  cortex_conn (self s) = Some c ->
  drv_cursor D c DictCursor (world s) = (inl e, w') ->
  cortex_search D sv q cols limit s =
  (inl (DriverError e), mkState (self s) w' (trace s ++ [EvCursor c DictCursor])).
Proof.
  intros Hc E. unfold cortex_search. rewrite bind_get_self, Hc.
  unfold bind, new_cursor, call. now rewrite E.
Qed.

(** After a cursor has been handed out, the statement is the next thing the
    driver is asked for. *)
Lemma get_dashboard_kpi_submits (kpi_name sql : string) (c : conn)
    (s : state W) (cur : cursor) (w1 : W) :
  dashboard_conn (self s) = Some c ->
  dict_get queries kpi_name = Some sql ->
  drv_cursor D c DictCursor (world s) = (inr cur, w1) ->
  exists evs,
    trace (snd (get_dashboard_kpi D kpi_name s)) =
    (trace s ++ EvCursor c DictCursor :: EvExecute cur sql :: evs)%list.
Proof.
  intros Hc Hq E1. unfold get_dashboard_kpi.
  rewrite bind_get_self, Hc, Hq, (registered_sql_truthy _ _ Hq).
  unfold bind at 1. unfold new_cursor, call. rewrite E1. cbn [negb].
  match goal with
  | |- context [bind (execute D cur sql) ?k ?s1] =>
      destruct (first_call (EvExecute cur sql) (drv_execute D cur sql) k
                  ltac:(intros; grows_tac) s1) as [evs E]
  end.
  exists evs. unfold execute. rewrite E. cbn [trace]. now rewrite <- app_assoc.
Qed.

Lemma query_cortex_submits (q model : string) (context : option string)
    (c : conn) (s : state W) (cur : cursor) (w1 : W) :
  cortex_conn (self s) = Some c ->
  drv_cursor D c SnowflakeCursor (world s) = (inr cur, w1) ->
  exists evs,
    trace (snd (query_cortex D json_loads q model context s)) =
    (trace s ++ EvCursor c SnowflakeCursor
       :: EvExecute cur
            (complete_sql model (str_or context default_system_prompt) q)
       :: evs)%list.
Proof.
  intros Hc E1. unfold query_cortex.
  rewrite bind_get_self, Hc. cbv zeta.
  unfold bind at 1. unfold new_cursor, call. rewrite E1.
  match goal with
  | |- context [bind (execute D cur ?sql) ?k ?s1] =>
      destruct (first_call (EvExecute cur sql) (drv_execute D cur sql) k
                  ltac:(intros; grows_tac) s1) as [evs E]
  end.
  exists evs. unfold execute. rewrite E. cbn [trace]. now rewrite <- app_assoc.
Qed.

Lemma cortex_search_submits (sv q : string) (cols : list string) (limit : Z)
    (c : conn) (s : state W) (cur : cursor) (w1 : W) :
  cortex_conn (self s) = Some c ->
  drv_cursor D c DictCursor (world s) = (inr cur, w1) ->
  exists evs,
    trace (snd (cortex_search D sv q cols limit s)) =
    (trace s ++ EvCursor c DictCursor
       :: EvExecute cur (search_sql sv q cols limit) :: evs)%list.
Proof.
  intros Hc E1. unfold cortex_search.
  rewrite bind_get_self, Hc. cbv zeta.
  unfold bind at 1. unfold new_cursor, call. rewrite E1.
  match goal with
  | |- context [bind (execute D cur ?sql) ?k ?s1] =>
      destruct (first_call (EvExecute cur sql) (drv_execute D cur sql) k
                  ltac:(intros; grows_tac) s1) as [evs E]
  end.
  exists evs. unfold execute. rewrite E. cbn [trace]. now rewrite <- app_assoc.
Qed.

Lemma bind_prefix {A B : Type} (pre : list event) (m : M A) (k : A -> M B)
    (s : state W) :
  (exists evs, trace (snd (m s)) = (trace s ++ pre ++ evs)%list) ->
  (forall a, grows (k a)) ->
  exists evs, trace (snd (bind m k s)) = (trace s ++ pre ++ evs)%list.
Proof.
  intros [evs E] Hk. unfold bind.
  destruct (m s) as [[e | a] s1]; cbn [snd] in *.
  - now exists evs.
  - destruct (Hk a s1) as [evs' E']. exists (evs ++ evs')%list.
    rewrite E', E, <- !app_assoc. reflexivity.
Qed.

Lemma query_cortex_with_data_submits (q model dq : string) (dc cc : conn)
    (s : state W) (cur : cursor) (w1 : W) :
  dashboard_conn (self s) = Some dc ->
  cortex_conn (self s) = Some cc ->
  str_truthy dq = true ->
  drv_cursor D dc DictCursor (world s) = (inr cur, w1) ->
  exists evs,
    trace (snd (query_cortex_with_data D json_loads json_dumps q model
                  (Some dq) s)) =
    (trace s ++ EvCursor dc DictCursor :: EvExecute cur dq :: evs)%list.
Proof.
  intros Hd Hc Ht E1. unfold query_cortex_with_data.
  rewrite bind_get_self, Hd, Hc, Ht.
  apply (bind_prefix [EvCursor dc DictCursor; EvExecute cur dq]).
  - unfold bind at 1. unfold new_cursor, call. rewrite E1.
    match goal with
    | |- context [bind (execute D cur dq) ?k ?s1] =>
        destruct (first_call (EvExecute cur dq) (drv_execute D cur dq) k
                    ltac:(intros; grows_tac) s1) as [evs E]
    end.
    exists evs. unfold execute. rewrite E. cbn [trace].
    now rewrite <- app_assoc.
  - intros text. apply query_cortex_grows.
Qed.

(** Without a data query the question goes to [query_cortex] as it is. *)
Lemma question_without_data (q model : string) (data_query : option string)
    (dc cc : conn) (s : state W) :
  dashboard_conn (self s) = Some dc ->
  cortex_conn (self s) = Some cc ->
  data_query = None \/ data_query = Some "" ->
  query_cortex_with_data D json_loads json_dumps q model data_query s =
  query_cortex D json_loads q model None s.
Proof.
  intros Hd Hc Hq. unfold query_cortex_with_data.
  rewrite bind_get_self, Hd, Hc.
  assert (Hempty : q ++ "" = q).
  { clear. induction q as [|ch q IH]; cbn; [reflexivity | now rewrite IH]. }
  destruct Hq as [-> | ->]; cbn [str_truthy]; unfold bind at 1, ret;
    now rewrite Hempty.
Qed.

Lemma query_cortex_with_data_refused (q model dq : string) (dc cc : conn)
    (s : state W) (e : driver_exn) (w' : W) :
  dashboard_conn (self s) = Some dc ->
  cortex_conn (self s) = Some cc ->
  str_truthy dq = true ->
  drv_cursor D dc DictCursor (world s) = (inl e, w') ->
  query_cortex_with_data D json_loads json_dumps q model (Some dq) s =
  (inl (DriverError e), mkState (self s) w' (trace s ++ [EvCursor dc DictCursor])).
Proof.
  intros Hd Hc Ht E. unfold query_cortex_with_data.
  rewrite bind_get_self, Hd, Hc, Ht.
  unfold bind, new_cursor, call. now rewrite E.
Qed.

(** C2, as the code has it.  Until a connect for the Session it needs has
    returned, each of the four query operations raises its [ConnectionError]
    and leaves the state, trace included, untouched.  [close_all] leaves the
    handles in the slots, so after it the guard of a query operation passes
    and the operation asks the driver for a cursor on the closed handle.
    When the driver refuses, the operation ends there with the driver's
    exception and that request is its only driver call: no statement is
    executed.  When the driver hands out the cursor, the next thing it is
    asked for is the execution of the operation's statement: the registered
    one of a KPI, the completion, the search, or the data query; without a
    data query [query_cortex_with_data] is [query_cortex]. *)
Theorem query_needs_filled_slot (cs : list api_call) (w : W) (s : state W) :
  (let history := fst (run_calls D json_loads json_dumps cs (fresh w)) in
   let s0 := snd (run_calls D json_loads json_dumps cs (fresh w)) in
   (no_dashboard_connect history = true ->
    (forall kpi_name,
       get_dashboard_kpi D kpi_name s0 = (inl dashboard_not_connected, s0)) /\
    (forall q model data_query,
       query_cortex_with_data D json_loads json_dumps q model data_query s0 =
       (inl both_connections_required, s0))) /\
   (no_cortex_connect history = true ->
    (forall q model context,
       query_cortex D json_loads q model context s0 =
       (inl cortex_not_connected, s0)) /\
    (forall sv q cols limit,
       cortex_search D sv q cols limit s0 = (inl search_not_connected, s0)) /\
    (forall q model data_query,
       query_cortex_with_data D json_loads json_dumps q model data_query s0 =
       (inl both_connections_required, s0)))) /\
  (let s1 := snd (close_all D s) in
   self s1 = self s /\
   (forall c kpi_name,
      dashboard_conn (self s) = Some c ->
      match drv_cursor D c DictCursor (world s1) with
      | (inl e, w') =>
          get_dashboard_kpi D kpi_name s1 =
          (inl (DriverError e),
           mkState (self s) w' (trace s1 ++ [EvCursor c DictCursor]))
      | (inr cur, w') =>
          forall sql,
            dict_get queries kpi_name = Some sql ->
            exists evs,
              trace (snd (get_dashboard_kpi D kpi_name s1)) =
              (trace s1 ++ EvCursor c DictCursor :: EvExecute cur sql :: evs)%list
      end) /\
   (forall c q model context,
      cortex_conn (self s) = Some c ->
      match drv_cursor D c SnowflakeCursor (world s1) with
      | (inl e, w') =>
          query_cortex D json_loads q model context s1 =
          (inl (DriverError e),
           mkState (self s) w' (trace s1 ++ [EvCursor c SnowflakeCursor]))
      | (inr cur, w') =>
          exists evs,
            trace (snd (query_cortex D json_loads q model context s1)) =
            (trace s1 ++ EvCursor c SnowflakeCursor
               :: EvExecute cur
                    (complete_sql model
                       (str_or context default_system_prompt) q)
               :: evs)%list
      end) /\
   (forall c sv q cols limit,
      cortex_conn (self s) = Some c ->
      match drv_cursor D c DictCursor (world s1) with
      | (inl e, w') =>
          cortex_search D sv q cols limit s1 =
          (inl (DriverError e),
           mkState (self s) w' (trace s1 ++ [EvCursor c DictCursor]))
      | (inr cur, w') =>
          exists evs,
            trace (snd (cortex_search D sv q cols limit s1)) =
            (trace s1 ++ EvCursor c DictCursor
               :: EvExecute cur (search_sql sv q cols limit) :: evs)%list
      end) /\
   (forall dc cc q model dq,
      dashboard_conn (self s) = Some dc ->
      cortex_conn (self s) = Some cc ->
      str_truthy dq = true ->
      match drv_cursor D dc DictCursor (world s1) with
      | (inl e, w') =>
          query_cortex_with_data D json_loads json_dumps q model (Some dq) s1 =
          (inl (DriverError e),
           mkState (self s) w' (trace s1 ++ [EvCursor dc DictCursor]))
      | (inr cur, w') =>
          exists evs,
            trace (snd (query_cortex_with_data D json_loads json_dumps q model
                          (Some dq) s1)) =
            (trace s1 ++ EvCursor dc DictCursor :: EvExecute cur dq :: evs)%list
      end) /\
   (forall dc cc q model data_query,
      dashboard_conn (self s) = Some dc ->
      cortex_conn (self s) = Some cc ->
      data_query = None \/ data_query = Some "" ->
      query_cortex_with_data D json_loads json_dumps q model data_query s1 =
      query_cortex D json_loads q model None s1)).
Proof.
  split.
  - cbv zeta. split; intros H.
    + pose proof (dashboard_slot_until_connect cs (fresh w) H) as Hs.
      simpl in Hs. split; intros.
      * now apply get_dashboard_kpi_guard.
      * apply query_cortex_with_data_guard. now left.
    + pose proof (cortex_slot_until_connect cs (fresh w) H) as Hs.
      simpl in Hs. repeat split; intros.
      * now apply query_cortex_guard.
      * now apply cortex_search_guard.
      * apply query_cortex_with_data_guard. now right.
  - cbv zeta. pose proof (close_all_keeps s) as Hself.
    set (s1 := snd (close_all D s)) in *.
    split; [exact Hself|]. rewrite <- Hself.
    split; [|split; [|split; [|split]]].
    + intros c kpi_name Hc.
      destruct (drv_cursor D c DictCursor (world s1)) as [[e | cur] w'] eqn:E.
      * now apply get_dashboard_kpi_refused.
      * intros sql Hq. eapply get_dashboard_kpi_submits; eassumption.
    + intros c q model context Hc.
      destruct (drv_cursor D c SnowflakeCursor (world s1)) as [[e | cur] w'] eqn:E.
      * now apply query_cortex_refused.
      * eapply query_cortex_submits; eassumption.
    + intros c sv q cols limit Hc.
      destruct (drv_cursor D c DictCursor (world s1)) as [[e | cur] w'] eqn:E.
      * now apply cortex_search_refused.
      * eapply cortex_search_submits; eassumption.
    + intros dc cc q model dq Hd Hc Ht.
      destruct (drv_cursor D dc DictCursor (world s1)) as [[e | cur] w'] eqn:E.
      * eapply query_cortex_with_data_refused; eassumption.
      * eapply query_cortex_with_data_submits; eassumption.
    + intros dc cc q model data_query Hd Hc Hq.
      eapply question_without_data; eassumption.
Qed.

End Properties.

(** ** The properties on concrete runs *)


Lemma connect_cortex_pat_prefix_check_witness :
  (startswith "sfp_" "abc123" = false /\
   connect_cortex_pat empty_mock "xy12345.us-east-1" "CORTEX_USER" "abc123"
     "CORTEX_WH" "ANALYTICS_DB" "CORTEX" "CORTEX_ROLE" (fresh tt) =
   (inl invalid_pat_format, fresh tt)) /\
  (startswith "sfp_" "sfp_abc123" = true /\
   trace (with_cortex empty_mock (fresh tt)) =
   [EvConnect (pat_args "xy12345.us-east-1" "CORTEX_USER" "sfp_abc123"
                 "CORTEX_WH" "ANALYTICS_DB" "CORTEX" "CORTEX_ROLE")]).
Proof.
  split; (split; [reflexivity|]).
  - apply (proj1 (connect_cortex_pat_prefix_check empty_mock _ _ "abc123" _ _ _ _ _)).
    reflexivity.
  - unfold with_cortex.
    rewrite (proj2 (connect_cortex_pat_prefix_check empty_mock _ _ "sfp_abc123"
                      _ _ _ _ (fresh tt)) eq_refl).
    reflexivity.
Defined.

Lemma get_dashboard_kpi_before_connect_witness :
  no_dashboard_connect
    (fst (run_calls empty_mock loads_stub dumps_stub assistant_only (fresh tt))) = true /\
  get_dashboard_kpi empty_mock "portfolio_overview"
    (snd (run_calls empty_mock loads_stub dumps_stub assistant_only (fresh tt))) =
  (inl dashboard_not_connected,
   snd (run_calls empty_mock loads_stub dumps_stub assistant_only (fresh tt))).
Proof.
  split; [reflexivity|].
  apply (get_dashboard_kpi_before_connect empty_mock loads_stub dumps_stub
           assistant_only tt "portfolio_overview").
  reflexivity.
Defined.

Lemma query_cortex_with_data_without_dashboard_witness :
  dashboard_conn (self (with_cortex empty_mock (fresh tt))) = None /\
  cortex_conn (self (with_cortex empty_mock (fresh tt))) = Some 1 /\
  query_cortex_with_data empty_mock loads_stub dumps_stub
    "Explain the current delinquency trends" default_model
    (Some "SELECT * FROM delinquency_summary LIMIT 10")
    (with_cortex empty_mock (fresh tt)) =
  (inl both_connections_required, with_cortex empty_mock (fresh tt)).
Proof.
  split; [reflexivity|]. split; [reflexivity|].
  apply (query_cortex_with_data_without_dashboard empty_mock loads_stub dumps_stub).
  reflexivity.
Defined.

Lemma connect_cortex_pat_invalid_keeps_slots_witness :
  startswith "sfp_" "abc123" = false /\
  self (snd (connect_cortex_pat kpi_mock "xy12345.us-east-1" "CORTEX_USER"
               "abc123" "CORTEX_WH" "ANALYTICS_DB" "CORTEX" "CORTEX_ROLE"
               (with_dashboard kpi_mock tt))) =
  mkManager (Some 1) None.
Proof.
  split; [reflexivity|].
  pose proof (connect_cortex_pat_invalid_keeps_slots kpi_mock
                "xy12345.us-east-1" "CORTEX_USER" "abc123" "CORTEX_WH"
                "ANALYTICS_DB" "CORTEX" "CORTEX_ROLE"
                (with_dashboard kpi_mock tt) eq_refl) as [_ [Hd Hc]].
  destruct (self (snd (connect_cortex_pat kpi_mock "xy12345.us-east-1"
                         "CORTEX_USER" "abc123" "CORTEX_WH" "ANALYTICS_DB"
                         "CORTEX" "CORTEX_ROLE" (with_dashboard kpi_mock tt))))
    as [d c].
  simpl in Hd, Hc. now rewrite Hd, Hc.
Defined.

Lemma get_dashboard_kpi_unknown_name_witness :
  dashboard_conn (self (with_dashboard kpi_mock tt)) = Some 1 /\
  get_dashboard_kpi kpi_mock "nonexistent_kpi" (with_dashboard kpi_mock tt) =
  (inl (unknown_kpi "nonexistent_kpi"),
   mkState (mkManager (Some 1) None) tt
     (trace (with_dashboard kpi_mock tt) ++ [EvCursor 1 DictCursor])).
Proof.
  split; [reflexivity|].
  rewrite (get_dashboard_kpi_unknown_name kpi_mock "nonexistent_kpi" 1
             (with_dashboard kpi_mock tt)
             ltac:(discriminate) ltac:(discriminate) eq_refl).
  reflexivity.
Defined.

(** C6, as the spec has it, on a driver that refuses a cursor on a connection
    it has closed: the Dashboard connect returns, and after [close_all] the
    query for an unknown name raises the driver's exception, not the
    unknown-KPI one. *)
Lemma get_dashboard_kpi_unknown_name_refused :
  let D := tracking false (mkScript [] []) in
  fst (connect_dashboard_sso D "xy12345.us-east-1" "analyst@example.com"
         "COMPUTE_WH" "ANALYTICS_DB" "PUBLIC" "ANALYST_ROLE"
         default_authenticator (fresh empty_db)) = inr 1 /\
  fst (get_dashboard_kpi D "nonexistent_kpi"
         (snd (close_all D (with_dashboard D empty_db)))) =
  inl (DriverError "Connection is closed") /\
  fst (get_dashboard_kpi D "nonexistent_kpi"
         (snd (close_all D (with_dashboard D empty_db)))) <>
  inl (unknown_kpi "nonexistent_kpi").
Proof.
  cbv zeta. split; [reflexivity|]. split; [reflexivity|].
  intros H. discriminate H.
Qed.

Lemma get_dashboard_kpi_first_row_witness :
  fst (get_dashboard_kpi kpi_mock "portfolio_overview" (with_dashboard kpi_mock tt)) =
  inr overview_row /\
  fst (get_dashboard_kpi empty_mock "delinquency" (with_dashboard empty_mock tt)) =
  inr [].
Proof.
  split.
  - rewrite (get_dashboard_kpi_first_row kpi_mock "portfolio_overview"
               portfolio_overview_sql 1 (with_dashboard kpi_mock tt) 1
               (Some overview_row) tt tt tt tt
               eq_refl eq_refl eq_refl eq_refl eq_refl eq_refl).
    reflexivity.
  - rewrite (get_dashboard_kpi_first_row empty_mock "delinquency"
               delinquency_sql 1 (with_dashboard empty_mock tt) 1
               None tt tt tt tt
               eq_refl eq_refl eq_refl eq_refl eq_refl eq_refl).
    reflexivity.
Defined.

Lemma query_cortex_no_row_witness :
  cortex_conn (self (with_cortex empty_mock (fresh tt))) = Some 1 /\
  drv_fetchone empty_mock 1 tt = (inr None, tt) /\
  fst (query_cortex empty_mock loads_stub
         "What is the current delinquency rate?" default_model None
         (with_cortex empty_mock (fresh tt))) =
  inr (JStr no_response).
Proof.
  split; [reflexivity|]. split; [reflexivity|].
  rewrite (query_cortex_no_row empty_mock loads_stub
             "What is the current delinquency rate?" default_model None 1
             (with_cortex empty_mock (fresh tt)) 1 tt tt tt tt
             eq_refl eq_refl eq_refl eq_refl eq_refl).
  reflexivity.
Defined.

(** C1, as the spec has it, on its own scenario: the default limit and a
    service that answers the templated statement with eight rows.  The call
    returns all eight, not five. *)
Lemma cortex_search_eight_hits :
  let s := with_cortex eight_mock (fresh tt) in
  let out := cortex_search eight_mock "servicing_docs" "foreclosure process"
               ["title"; "score"] default_limit s in
  fst out = inr eight_hits /\
  List.length eight_hits = 8%nat /\
  ~ (Z.of_nat (List.length eight_hits) <= default_limit)%Z /\
  trace (snd out) =
  (trace s ++
   [EvCursor 1 DictCursor;
    EvExecute 1 (search_sql "servicing_docs" "foreclosure process"
                   ["title"; "score"] 5);
    EvFetchall 1; EvCursorClose 1])%list.
Proof.
  cbv zeta. repeat split.
  unfold default_limit. simpl. lia.
Qed.

Lemma cortex_search_returns_fetched_rows_witness :
  let s := with_cortex five_mock (fresh tt) in
  cortex_conn (self s) = Some 1 /\
  fst (cortex_search five_mock "servicing_docs" "foreclosure process"
         ["title"; "score"] default_limit s) =
  inr [hit 8; hit 7; hit 6; hit 5; hit 4] /\
  (Z.of_nat (List.length [hit 8; hit 7; hit 6; hit 5; hit 4]) <= default_limit)%Z.
Proof.
  cbv zeta. split; [reflexivity|].
  destruct (cortex_search_returns_fetched_rows five_mock
              "servicing_docs" "foreclosure process" ["title"; "score"]
              default_limit 1 (with_cortex five_mock (fresh tt)) 1
              (firstn 5 eight_hits) tt tt tt tt
              eq_refl eq_refl eq_refl eq_refl eq_refl) as [R B].
  split.
  - rewrite R. reflexivity.
  - apply (proj2 (B (firstn 5 eight_hits) (f_equal fst R))).
    unfold default_limit. simpl. lia.
Defined.



(** C2, as the spec has it, on a test double that goes on answering after
    [close]: the Dashboard connect returns, [close_all] returns, and the KPI
    query that follows is executed and returns its row. *)
Lemma get_dashboard_kpi_after_close_runs :
  let s := with_dashboard kpi_mock tt in
  let s1 := snd (close_all kpi_mock s) in
  let out := get_dashboard_kpi kpi_mock "portfolio_overview" s1 in
  trace s1 = (trace s ++ [EvClose 1])%list /\
  fst out = inr overview_row /\
  trace (snd out) =
  (trace s1 ++ [EvCursor 1 DictCursor; EvExecute 1 portfolio_overview_sql;
                EvFetchone 1; EvCursorClose 1])%list.
Proof. cbv zeta. repeat split. Qed.

Lemma query_needs_filled_slot_witness :
  let D := tracking false (mkScript [] [overview_row]) in
  let s := with_dashboard D empty_db in
  (get_dashboard_kpi D "portfolio_overview"
     (snd (run_calls D loads_stub dumps_stub assistant_only (fresh empty_db))) =
   (inl dashboard_not_connected,
    snd (run_calls D loads_stub dumps_stub assistant_only (fresh empty_db)))) /\
  dashboard_conn (self (snd (close_all D s))) = Some 1 /\
  get_dashboard_kpi D "portfolio_overview" (snd (close_all D s)) =
  (inl (DriverError "Connection is closed"),
   mkState (self s) (world (snd (close_all D s)))
     (trace (snd (close_all D s)) ++ [EvCursor 1 DictCursor])).
Proof.
  cbv zeta.
  pose proof (query_needs_filled_slot (tracking false (mkScript [] [overview_row]))
                loads_stub dumps_stub assistant_only empty_db
                (with_dashboard (tracking false (mkScript [] [overview_row]))
                   empty_db))
    as [[Before _] [Kept [After _]]].
  split; [apply (proj1 (Before eq_refl))|].
  split; [now rewrite Kept|].
  exact (After 1 "portfolio_overview" eq_refl).
Defined.

(** ** Further properties of the facade, for every driver *)

Section FurtherProperties.

Context {W : Type}.
Variable D : Driver W.
Variable json_loads : json_source -> exn + json.
Variable json_dumps : list dict_row -> string.

(** *** Confinement *)

Lemma confined_ret {A : Type} (allowed : event -> bool) (a : A) :
  confined allowed (@ret W A a).
Proof.
  intros s. split; [reflexivity|]. exists []. simpl. now rewrite app_nil_r.
Qed.

Lemma confined_raise {A : Type} (allowed : event -> bool) (e : exn) :
  confined allowed (@raise W A e).
Proof.
  intros s. split; [reflexivity|]. exists []. simpl. now rewrite app_nil_r.
Qed.

Lemma confined_lift {A : Type} (allowed : event -> bool) (r : exn + A) :
  confined allowed (@lift W A r).
Proof. destruct r; [apply confined_raise | apply confined_ret]. Qed.

Lemma confined_get_self (allowed : event -> bool) :
  confined allowed (@get_self W).
Proof.
  intros s. split; [reflexivity|]. exists []. simpl. now rewrite app_nil_r.
Qed.

Lemma confined_call {A : Type} (allowed : event -> bool) (ev : event)
    (f : W -> (driver_exn + A) * W) :
  allowed ev = true -> confined allowed (call ev f).
Proof.
  intros Hev s. unfold call.
  destruct (f (world s)) as [[e | a] w']; simpl;
    (split; [reflexivity|]); exists [ev]; simpl; now rewrite Hev.
Qed.

Lemma confined_bind {A B : Type} (allowed : event -> bool) (m : @M W A)
    (k : A -> @M W B) :
  confined allowed m -> (forall a, confined allowed (k a)) ->
  confined allowed (bind m k).
Proof.
  intros Hm Hk s. unfold bind. destruct (Hm s) as [Hs [evs [E F]]].
  destruct (m s) as [[e | a] s1]; simpl in *.
  - split; [exact Hs|]. now exists evs.
  - destruct (Hk a s1) as [Hs' [evs' [E' F']]]. split; [congruence|].
    exists (evs ++ evs')%list. rewrite E', E, app_assoc. split; [reflexivity|].
    rewrite forallb_app. now rewrite F, F'.
Qed.

Lemma confined_try {A : Type} (allowed : event -> bool) (m : @M W A)
    (h : exn -> @M W A) :
  confined allowed m -> (forall e, confined allowed (h e)) ->
  confined allowed (try_except m h).
Proof.
  intros Hm Hh s. unfold try_except. destruct (Hm s) as [Hs [evs [E F]]].
  destruct (m s) as [[e | a] s1]; simpl in *.
  - destruct (Hh e s1) as [Hs' [evs' [E' F']]]. split; [congruence|].
    exists (evs ++ evs')%list. rewrite E', E, app_assoc. split; [reflexivity|].
    rewrite forallb_app. now rewrite F, F'.
  - split; [exact Hs|]. now exists evs.
Qed.

Lemma confined_weaken {A : Type} (allowed allowed' : event -> bool)
    (m : @M W A) :
  (forall ev, allowed ev = true -> allowed' ev = true) ->
  confined allowed m -> confined allowed' m.
Proof.
  intros Himp Hm s. destruct (Hm s) as [Hs [evs [E F]]].
  split; [exact Hs|]. exists evs. split; [exact E|].
  rewrite forallb_forall in *. auto.
Qed.

Ltac confined_tac :=
  unfold fmap, connect, load_key, new_cursor, execute, fetchone, fetchone_dict,
    fetchall_dict, cursor_close, conn_close;
  repeat first
    [ apply confined_ret | apply confined_raise | apply confined_lift
    | apply confined_get_self
    | apply confined_call; reflexivity
    | apply confined_bind; [ | intros ]
    | apply confined_try; [ | intros ]
    | match goal with
      | |- confined _ (match ?x with _ => _ end) => destruct x
      | |- confined _ (let _ := _ in _) => cbv zeta
      end ].

Lemma get_dashboard_kpi_confined kpi_name :
  confined within_session (get_dashboard_kpi D kpi_name).
Proof. unfold get_dashboard_kpi. confined_tac. Qed.

Lemma query_cortex_confined q model context :
  confined within_session (query_cortex D json_loads q model context).
Proof. unfold query_cortex. confined_tac. Qed.

Lemma query_cortex_with_data_confined q model data_query :
  confined within_session
    (query_cortex_with_data D json_loads json_dumps q model data_query).
Proof.
  unfold query_cortex_with_data. confined_tac; apply query_cortex_confined.
Qed.

Lemma cortex_search_confined sv q cols limit :
  confined within_session (cortex_search D sv q cols limit).
Proof. unfold cortex_search. confined_tac. Qed.

Lemma test_dashboard_connection_confined :
  confined within_session (test_dashboard_connection D).
Proof. unfold test_dashboard_connection. confined_tac. Qed.

Lemma test_cortex_connection_confined :
  confined within_session (test_cortex_connection D).
Proof. unfold test_cortex_connection. confined_tac. Qed.

Lemma close_all_confined :
  confined (fun ev => negb (is_connect ev)) (close_all D).
Proof. unfold close_all. confined_tac. Qed.

(** *** Which calls connect and which close *)

Lemma fmap_state {A B : Type} (f : A -> B) (m : @M W A) (s : state W) :
  snd (fmap f m s) = snd (m s).
Proof.
  unfold fmap, bind, ret. destruct (m s) as [[e | a] s1]; reflexivity.
Qed.

Lemma within_session_split (ev : event) :
  within_session ev = true ->
  negb (is_close ev) = true /\ negb (is_connect ev) = true.
Proof. destruct ev; simpl; intros H; (discriminate H || now split). Qed.

Lemma confined_trace {A : Type} (m : @M W A) (s : state W) :
  confined within_session m ->
  exists evs,
    trace (snd (m s)) = (trace s ++ evs)%list /\
    forallb (fun ev => negb (is_close ev)) evs = true /\
    forallb (fun ev => negb (is_connect ev)) evs = true.
Proof.
  intros Hm. destruct (Hm s) as [_ [evs [E F]]]. exists evs.
  split; [exact E|]. rewrite forallb_forall in F.
  split; apply forallb_forall; intros ev Hin;
    now destruct (within_session_split ev (F ev Hin)).
Qed.

(** Of all the calls only [close_all] closes a connection, and only the three
    connects open one: whatever the driver answers, no other call asks it for
    either. *)
Theorem only_close_all_closes (c : api_call) (s : state W) :
  exists evs,
    trace (snd (perform D json_loads json_dumps c s)) = (trace s ++ evs)%list /\
    (is_close_all c = false ->
     forallb (fun ev => negb (is_close ev)) evs = true) /\
    (is_connect_call c = false ->
     forallb (fun ev => negb (is_connect ev)) evs = true).
Proof.
  destruct c; simpl perform; rewrite fmap_state.
  - unfold connect_dashboard_sso, connect, bind, call, set_dashboard_conn, ret.
    destruct (drv_connect D _ (world s)) as [[e | c] w']; simpl;
      eexists; (split; [reflexivity|]); split; (reflexivity || discriminate).
  - unfold connect_dashboard_keypair, load_key, connect, bind, call,
      set_dashboard_conn, ret.
    destruct (drv_load_key D _ _ (world s)) as [[e | key] w1]; simpl.
    + eexists; (split; [reflexivity|]); split; (reflexivity || discriminate).
    + destruct (drv_connect D _ w1) as [[e | c] w2]; simpl;
        rewrite <- app_assoc;
        eexists; (split; [reflexivity|]); split; (reflexivity || discriminate).
  - unfold connect_cortex_pat, connect, bind, call, set_cortex_conn, ret, raise.
    destruct (negb (startswith "sfp_" pat)); simpl.
    + exists []. rewrite app_nil_r. repeat split.
    + destruct (drv_connect D _ (world s)) as [[e | c] w']; simpl;
        eexists; (split; [reflexivity|]); split; (reflexivity || discriminate).
  - destruct (confined_trace _ s (get_dashboard_kpi_confined kpi_name))
      as [evs [E [F1 F2]]]. exists evs. auto.
  - destruct (confined_trace _ s (query_cortex_confined user_question model context))
      as [evs [E [F1 F2]]]. exists evs. auto.
  - destruct (confined_trace _ s
                (query_cortex_with_data_confined user_question model data_query))
      as [evs [E [F1 F2]]]. exists evs. auto.
  - destruct (confined_trace _ s
                (cortex_search_confined search_service query columns limit))
      as [evs [E [F1 F2]]]. exists evs. auto.
  - destruct (close_all_confined s) as [_ [evs [E F]]]. exists evs.
    split; [exact E|]. split; [discriminate | auto].
  - destruct (confined_trace _ s test_dashboard_connection_confined)
      as [evs [E [F1 F2]]]. exists evs. auto.
  - destruct (confined_trace _ s test_cortex_connection_confined)
      as [evs [E [F1 F2]]]. exists evs. auto.
Qed.

(** *** The slots along a session *)

Lemma perform_slots (c : api_call) (s : state W) :
  let r := fst (perform D json_loads json_dumps c s) in
  let s1 := snd (perform D json_loads json_dumps c s) in
  dashboard_conn (self s1) =
  last_dashboard_handle (dashboard_conn (self s)) [(c, r)] /\
  cortex_conn (self s1) =
  last_cortex_handle (cortex_conn (self s)) [(c, r)].
Proof.
  cbv zeta. destruct c; simpl perform; rewrite fmap_self, fmap_result; simpl.
  - pose proof (connect_dashboard_sso_slots D account user warehouse database
                  schema role authenticator s) as E.
    destruct (fst (connect_dashboard_sso D _ _ _ _ _ _ _ s)); now rewrite E.
  - pose proof (connect_dashboard_keypair_slots D account user private_key_path
                  warehouse database schema role passphrase s) as E.
    destruct (fst (connect_dashboard_keypair D _ _ _ _ _ _ _ _ s)); now rewrite E.
  - pose proof (connect_cortex_pat_slots D account user pat warehouse database
                  schema role s) as E.
    destruct (fst (connect_cortex_pat D _ _ _ _ _ _ _ s)); now rewrite E.
  - rewrite get_dashboard_kpi_keeps.
    now destruct (fst (get_dashboard_kpi D kpi_name s)).
  - rewrite query_cortex_keeps.
    now destruct (fst (query_cortex D json_loads user_question model context s)).
  - rewrite query_cortex_with_data_keeps.
    now destruct (fst (query_cortex_with_data D json_loads json_dumps
                         user_question model data_query s)).
  - rewrite cortex_search_keeps.
    now destruct (fst (cortex_search D search_service query columns limit s)).
  - rewrite close_all_keeps. now destruct (fst (close_all D s)).
  - rewrite test_dashboard_connection_keeps.
    now destruct (fst (test_dashboard_connection D s)).
  - rewrite test_cortex_connection_keeps.
    now destruct (fst (test_cortex_connection D s)).
Qed.

(** Along any sequence of calls, whatever each of them returned or raised,
    each slot holds the handle returned by the last connect for it that
    succeeded: a connect that raises leaves the earlier handle in place, and
    no query, test or [close_all] ever changes or clears a slot. *)
Theorem slots_follow_connects (cs : list api_call) (s : state W) :
  let history := fst (run_calls D json_loads json_dumps cs s) in
  let s' := snd (run_calls D json_loads json_dumps cs s) in
  dashboard_conn (self s') =
  last_dashboard_handle (dashboard_conn (self s)) history /\
  cortex_conn (self s') =
  last_cortex_handle (cortex_conn (self s)) history.
Proof.
  cbv zeta. revert s. induction cs as [|c cs IH]; intros s.
  - split; reflexivity.
  - rewrite run_calls_cons. simpl fst. simpl snd.
    destruct (IH (snd (perform D json_loads json_dumps c s))) as [Hd Hc].
    destruct (perform_slots c s) as [Pd Pc].
    rewrite Hd, Hc, Pd, Pc. split; reflexivity.
Qed.

(** *** The two Sessions do not depend on each other *)

Lemma blind_ret {A : Type} (a : A) : blind (@ret W A a).
Proof. intros me s. reflexivity. Qed.

Lemma blind_raise {A : Type} (e : exn) : blind (@raise W A e).
Proof. intros me s. reflexivity. Qed.

Lemma blind_lift {A : Type} (r : exn + A) : blind (@lift W A r).
Proof. destruct r; [apply blind_raise | apply blind_ret]. Qed.

Lemma blind_call {A : Type} (ev : event) (f : W -> (driver_exn + A) * W) :
  blind (call ev f).
Proof.
  intros me s. unfold call, with_self. simpl.
  destruct (f (world s)) as [[e | a] w']; reflexivity.
Qed.

Lemma blind_bind {A B : Type} (m : @M W A) (k : A -> @M W B) :
  blind m -> (forall a, blind (k a)) -> blind (bind m k).
Proof.
  intros Hm Hk me s. unfold bind. rewrite Hm.
  destruct (m s) as [[e | a] s1]; simpl.
  - reflexivity.
  - apply Hk.
Qed.

Ltac blind_tac :=
  unfold connect, load_key, new_cursor, execute, fetchone, fetchone_dict,
    fetchall_dict, cursor_close, conn_close;
  repeat first
    [ apply blind_ret | apply blind_raise | apply blind_lift | apply blind_call
    | apply blind_bind; [ | intros ]
    | match goal with
      | |- blind (match ?x with _ => _ end) => destruct x
      | |- blind (let _ := _ in _) => cbv zeta
      end ].

(** A KPI query gives the same result, world and trace whatever the
    Assistant slot holds, and a completion or a search gives the same
    whatever the Dashboard slot holds: each of them reads its own slot
    only. *)
Theorem sessions_independent (other : option conn) (s : state W) :
  (forall kpi_name,
     get_dashboard_kpi D kpi_name
       (with_self (mkManager (dashboard_conn (self s)) other) s) =
     (fst (get_dashboard_kpi D kpi_name s),
      with_self (mkManager (dashboard_conn (self s)) other)
        (snd (get_dashboard_kpi D kpi_name s)))) /\
  (forall q model context,
     query_cortex D json_loads q model context
       (with_self (mkManager other (cortex_conn (self s))) s) =
     (fst (query_cortex D json_loads q model context s),
      with_self (mkManager other (cortex_conn (self s)))
        (snd (query_cortex D json_loads q model context s)))) /\
  (forall sv q cols limit,
     cortex_search D sv q cols limit
       (with_self (mkManager other (cortex_conn (self s))) s) =
     (fst (cortex_search D sv q cols limit s),
      with_self (mkManager other (cortex_conn (self s)))
        (snd (cortex_search D sv q cols limit s)))).
Proof.
  repeat split; intros.
  - unfold get_dashboard_kpi. rewrite !bind_get_self. simpl.
    destruct (dashboard_conn (self s)) as [c|]; [|reflexivity].
    match goal with |- ?m (with_self ?me s) = _ => assert (B : blind m) end.
    { blind_tac. }
    apply B.
  - unfold query_cortex. rewrite !bind_get_self. simpl.
    destruct (cortex_conn (self s)) as [c|]; [|reflexivity].
    match goal with |- ?m (with_self ?me s) = _ => assert (B : blind m) end.
    { blind_tac. }
    apply B.
  - unfold cortex_search. rewrite !bind_get_self. simpl.
    destruct (cortex_conn (self s)) as [c|]; [|reflexivity].
    match goal with |- ?m (with_self ?me s) = _ => assert (B : blind m) end.
    { blind_tac. }
    apply B.
Qed.

(** *** Closing *)

(** When the driver raises on the close of the Dashboard connection,
    [close_all] ends there with that exception: the Assistant connection is
    not closed. *)
Theorem close_all_stops_at_first_failure
    (d : conn) (s : state W) (e : driver_exn) (w' : W) :
  dashboard_conn (self s) = Some d ->
  drv_close D d (world s) = (inl e, w') ->
  close_all D s =
  (inl (DriverError e), mkState (self s) w' (trace s ++ [EvClose d])).
Proof.
  intros Hd E. unfold close_all. rewrite bind_get_self, Hd.
  unfold bind, conn_close, call. now rewrite E.
Qed.

(** *** Failing statements *)

(** When the driver raises on [execute], a KPI query and a search end there
    with that exception: [cursor.close()] is not reached, the cursor they
    opened stays open. *)
Theorem failed_execute_leaves_cursor_open
    (c : conn) (s : state W) (cur : cursor) (e : driver_exn) (w1 w2 : W) :
  (forall kpi_name sql,
     dict_get queries kpi_name = Some sql ->
     dashboard_conn (self s) = Some c ->
     drv_cursor D c DictCursor (world s) = (inr cur, w1) ->
     drv_execute D cur sql w1 = (inl e, w2) ->
     get_dashboard_kpi D kpi_name s =
     (inl (DriverError e),
      mkState (self s) w2 (trace s ++ [EvCursor c DictCursor; EvExecute cur sql]))) /\
  (forall sv q cols limit,
     cortex_conn (self s) = Some c ->
     drv_cursor D c DictCursor (world s) = (inr cur, w1) ->
     drv_execute D cur (search_sql sv q cols limit) w1 = (inl e, w2) ->
     cortex_search D sv q cols limit s =
     (inl (DriverError e),
      mkState (self s) w2
        (trace s ++ [EvCursor c DictCursor;
                     EvExecute cur (search_sql sv q cols limit)]))).
Proof.
  split.
  - intros kpi_name sql Hq Hc E1 E2.
    unfold get_dashboard_kpi, bind, get_self, new_cursor, execute, call.
    rewrite Hc, Hq, (registered_sql_truthy _ _ Hq). simpl.
    rewrite E1. simpl. rewrite E2. simpl.
    now rewrite <- app_assoc.
  - intros sv q cols limit Hc E1 E2.
    unfold cortex_search, bind, get_self, new_cursor, execute, call.
    rewrite Hc. simpl. rewrite E1. simpl. rewrite E2. simpl.
    now rewrite <- app_assoc.
Qed.

(** *** Decoding the completion *)

Lemma query_cortex_decodes
    (q model : string) (context : option string) (c : conn) (s : state W)
    (cur : cursor) (v : value) (rest : tuple_row) (w1 w2 w3 w4 : W) :
  let sql := complete_sql model (str_or context default_system_prompt) q in
  cortex_conn (self s) = Some c ->
  drv_cursor D c SnowflakeCursor (world s) = (inr cur, w1) ->
  drv_execute D cur sql w1 = (inr tt, w2) ->
  drv_fetchone D cur w2 = (inr (Some (v :: rest)), w3) ->
  drv_cursor_close D cur w3 = (inr tt, w4) ->
  query_cortex D json_loads q model context s =
  (match loads_source v with
   | Some source =>
       match json_loads source with
       | inl e => inl e
       | inr response_json =>
           match getitem_key response_json "choices" with
           | inl e => inl e
           | inr choices =>
               match getitem_0 choices with
               | inl e => inl e
               | inr choice => getitem_key choice "messages"
               end
           end
       end
   | None => inl TypeError
   end,
   mkState (self s) w4
     (trace s ++ [EvCursor c SnowflakeCursor; EvExecute cur sql;
                  EvFetchone cur; EvCursorClose cur])).
Proof.
  intros sql Hc E1 E2 E3 E4.
  unfold query_cortex, bind, get_self, new_cursor, execute, fetchone,
    cursor_close, call, ret.
  rewrite Hc. simpl. rewrite E1. simpl. fold sql. rewrite E2. simpl.
  rewrite E3. simpl. rewrite E4. simpl.
  repeat rewrite <- app_assoc. simpl.
  destruct (loads_source v) as [source|]; [|reflexivity].
  unfold lift, raise, ret.
  destruct (json_loads source) as [e | response_json]; [reflexivity|].
  destruct (getitem_key response_json "choices") as [e | choices]; [reflexivity|].
  destruct (getitem_0 choices) as [e | choice]; [reflexivity|].
  destruct (getitem_key choice "messages"); reflexivity.
Qed.

(** When the completion returns a row whose first column is the text of a
    JSON object with a non-empty [choices] array, whose first element is an
    object with a [messages] member, [query_cortex] returns that member;
    further columns, further choices and further members are ignored. *)
Theorem query_cortex_first_choice
    (q model : string) (context : option string) (c : conn) (s : state W)
    (cur : cursor) (text : string) (rest : tuple_row)
    (members choice : list (string * json)) (others : list json) (answer : json)
    (w1 w2 w3 w4 : W) :
  let sql := complete_sql model (str_or context default_system_prompt) q in
  cortex_conn (self s) = Some c ->
  drv_cursor D c SnowflakeCursor (world s) = (inr cur, w1) ->
  drv_execute D cur sql w1 = (inr tt, w2) ->
  drv_fetchone D cur w2 = (inr (Some (VStr text :: rest)), w3) ->
  drv_cursor_close D cur w3 = (inr tt, w4) ->
  json_loads (FromStr text) = inr (JObj members) ->
  dict_get members "choices" = Some (JArr (JObj choice :: others)) ->
  dict_get choice "messages" = Some answer ->
  fst (query_cortex D json_loads q model context s) = inr answer.
Proof.
  intros sql Hc E1 E2 E3 E4 Hl Hm Ha.
  rewrite (query_cortex_decodes q model context c s cur (VStr text) rest
             w1 w2 w3 w4 Hc E1 E2 E3 E4).
  simpl. rewrite Hl. simpl. rewrite Hm. simpl. now rewrite Ha.
Qed.

(** A completion row that cannot be decoded makes [query_cortex] raise, after
    the cursor has been closed: [TypeError] when the first column is [None]
    or an integer, the exception of [json.loads] when it rejects the text or
    the bytes, [KeyError] when the decoded object has no [choices] member,
    [IndexError] when [choices] is empty. *)
Theorem query_cortex_malformed_response
    (q model : string) (context : option string) (c : conn) (s : state W)
    (cur : cursor) (v : value) (rest : tuple_row) (w1 w2 w3 w4 : W) :
  let sql := complete_sql model (str_or context default_system_prompt) q in
  let out := query_cortex D json_loads q model context s in
  cortex_conn (self s) = Some c ->
  drv_cursor D c SnowflakeCursor (world s) = (inr cur, w1) ->
  drv_execute D cur sql w1 = (inr tt, w2) ->
  drv_fetchone D cur w2 = (inr (Some (v :: rest)), w3) ->
  drv_cursor_close D cur w3 = (inr tt, w4) ->
  trace (snd out) =
  (trace s ++ [EvCursor c SnowflakeCursor; EvExecute cur sql;
               EvFetchone cur; EvCursorClose cur])%list /\
  (v = VNone \/ (exists z, v = VInt z) -> fst out = inl TypeError) /\
  (forall source e,
     loads_source v = Some source -> json_loads source = inl e ->
     fst out = inl e) /\
  (forall source members,
     loads_source v = Some source -> json_loads source = inr (JObj members) ->
     dict_get members "choices" = None -> fst out = inl KeyError) /\
  (forall source members,
     loads_source v = Some source -> json_loads source = inr (JObj members) ->
     dict_get members "choices" = Some (JArr []) -> fst out = inl IndexError).
Proof.
  intros sql out Hc E1 E2 E3 E4. subst out.
  rewrite (query_cortex_decodes q model context c s cur v rest
             w1 w2 w3 w4 Hc E1 E2 E3 E4).
  cbn [fst snd trace]. split; [reflexivity|]. repeat split.
  - intros [-> | [z ->]]; reflexivity.
  - intros source e Hs Hl. now rewrite Hs, Hl.
  - intros source members Hs Hl Hm. rewrite Hs, Hl. simpl. now rewrite Hm.
  - intros source members Hs Hl Hm. rewrite Hs, Hl. simpl. now rewrite Hm.
Qed.

(** *** Questions with data *)

Lemma append_empty (q : string) : q ++ "" = q.
Proof. induction q as [|ch q IH]; simpl; [reflexivity | now rewrite IH]. Qed.

(** With both connections in place and no data query, or an empty one,
    [query_cortex_with_data] is [query_cortex] on the question as it stands:
    nothing is run on the Dashboard connection. *)
Theorem with_data_without_query
    (q model : string) (data_query : option string) (dc cc : conn) (s : state W) :
  dashboard_conn (self s) = Some dc ->
  cortex_conn (self s) = Some cc ->
  data_query = None \/ data_query = Some "" ->
  query_cortex_with_data D json_loads json_dumps q model data_query s =
  query_cortex D json_loads q model None s.
Proof.
  intros Hd Hc Hq. unfold query_cortex_with_data.
  rewrite bind_get_self, Hd, Hc.
  destruct Hq as [-> | ->]; simpl; unfold bind, ret; now rewrite append_empty.
Qed.

(** With a data query that the Dashboard connection answers,
    [query_cortex_with_data] is [query_cortex], run after the cursor of the
    data query has been closed, on the question followed by a blank line, the
    line [Here is the relevant data:] and the JSON text of all fetched
    rows. *)
Theorem with_data_appends_rows
    (q model dq : string) (dc cc : conn) (s : state W) (cur : cursor)
    (data : list dict_row) (w1 w2 w3 w4 : W) :
  dashboard_conn (self s) = Some dc ->
  cortex_conn (self s) = Some cc ->
  str_truthy dq = true ->
  drv_cursor D dc DictCursor (world s) = (inr cur, w1) ->
  drv_execute D cur dq w1 = (inr tt, w2) ->
  drv_fetchall_dict D cur w2 = (inr data, w3) ->
  drv_cursor_close D cur w3 = (inr tt, w4) ->
  query_cortex_with_data D json_loads json_dumps q model (Some dq) s =
  query_cortex D json_loads
    (q ++ nl ++ nl ++ "Here is the relevant data:" ++ nl ++ json_dumps data)
    model None
    (mkState (self s) w4
       (trace s ++ [EvCursor dc DictCursor; EvExecute cur dq;
                    EvFetchall cur; EvCursorClose cur])).
Proof.
  intros Hd Hc Ht E1 E2 E3 E4. unfold query_cortex_with_data.
  rewrite bind_get_self, Hd, Hc, Ht.
  unfold bind at 1.
  unfold bind, new_cursor, execute, fetchall_dict, cursor_close, call, ret.
  rewrite E1. simpl. rewrite E2. simpl. rewrite E3. simpl. rewrite E4. simpl.
  repeat rewrite <- app_assoc. reflexivity.
Qed.

(** When the data query fails on the Dashboard connection, at [execute] or at
    [fetchall], [query_cortex_with_data] ends there with the driver's
    exception: no completion is requested on the Assistant connection. *)
Theorem with_data_failed_query
    (q model dq : string) (dc cc : conn) (s : state W) (cur : cursor)
    (e : driver_exn) (w1 w2 : W) :
  dashboard_conn (self s) = Some dc ->
  cortex_conn (self s) = Some cc ->
  str_truthy dq = true ->
  drv_cursor D dc DictCursor (world s) = (inr cur, w1) ->
  (drv_execute D cur dq w1 = (inl e, w2) ->
   query_cortex_with_data D json_loads json_dumps q model (Some dq) s =
   (inl (DriverError e),
    mkState (self s) w2 (trace s ++ [EvCursor dc DictCursor; EvExecute cur dq]))) /\
  (forall w3,
     drv_execute D cur dq w1 = (inr tt, w2) ->
     drv_fetchall_dict D cur w2 = (inl e, w3) ->
     query_cortex_with_data D json_loads json_dumps q model (Some dq) s =
     (inl (DriverError e),
      mkState (self s) w3
        (trace s ++ [EvCursor dc DictCursor; EvExecute cur dq; EvFetchall cur]))).
Proof.
  intros Hd Hc Ht E1. split.
  - intros E2. unfold query_cortex_with_data.
    rewrite bind_get_self, Hd, Hc, Ht.
    unfold bind, new_cursor, execute, call.
    rewrite E1. simpl. rewrite E2. simpl. now rewrite <- app_assoc.
  - intros w3 E2 E3. unfold query_cortex_with_data.
    rewrite bind_get_self, Hd, Hc, Ht.
    unfold bind, new_cursor, execute, fetchall_dict, call.
    rewrite E1. simpl. rewrite E2. simpl. rewrite E3. simpl.
    now repeat rewrite <- app_assoc.
Qed.

(** *** The connection tests *)

Lemma never_raises_try {A : Type} (m : @M W A) (h : exn -> @M W A) :
  (forall e, never_raises (h e)) -> never_raises (try_except m h).
Proof.
  intros Hh s. unfold try_except.
  destruct (m s) as [[e | a] s1].
  - apply Hh.
  - now exists a.
Qed.

Lemma never_raises_ret {A : Type} (a : A) : never_raises (@ret W A a).
Proof. intros s. now exists a. Qed.

Lemma test_dashboard_connection_returns :
  never_raises (test_dashboard_connection D).
Proof.
  intros s. unfold test_dashboard_connection. rewrite bind_get_self.
  destruct (dashboard_conn (self s)) as [c|].
  - apply never_raises_try. intros e. apply never_raises_ret.
  - apply never_raises_ret.
Qed.

Lemma test_cortex_connection_returns :
  never_raises (test_cortex_connection D).
Proof.
  intros s. unfold test_cortex_connection. rewrite bind_get_self.
  destruct (cortex_conn (self s)) as [c|].
  - apply never_raises_try. intros e. apply never_raises_ret.
  - apply never_raises_ret.
Qed.

(** The two connection tests never raise, whatever the driver does: each
    returns a boolean, and returns [False] without a call to the driver when
    its slot is empty. *)
Theorem connection_tests_never_raise (s : state W) :
  (exists b, fst (test_dashboard_connection D s) = inr b) /\
  (exists b, fst (test_cortex_connection D s) = inr b) /\
  (dashboard_conn (self s) = None ->
   test_dashboard_connection D s = (inr false, s)) /\
  (cortex_conn (self s) = None ->
   test_cortex_connection D s = (inr false, s)).
Proof.
  split; [apply test_dashboard_connection_returns|].
  split; [apply test_cortex_connection_returns|].
  split; intros H.
  - unfold test_dashboard_connection. now rewrite bind_get_self, H.
  - unfold test_cortex_connection. now rewrite bind_get_self, H.
Qed.

(** With a connection in the Dashboard slot, [test_dashboard_connection]
    returns [True] exactly when the driver hands out a cursor, executes the
    identity statement, fetches a row of at least three columns and closes the
    cursor; in every other case it returns [False]. *)
Theorem test_dashboard_connection_true_iff (c : conn) (s : state W) :
  dashboard_conn (self s) = Some c ->
  (fst (test_dashboard_connection D s) = inr true <->
   exists cur row w1 w2 w3 w4,
     drv_cursor D c SnowflakeCursor (world s) = (inr cur, w1) /\
     drv_execute D cur
       "SELECT CURRENT_USER(), CURRENT_ROLE(), CURRENT_WAREHOUSE()" w1 =
     (inr tt, w2) /\
     drv_fetchone D cur w2 = (inr (Some row), w3) /\
     (3 <= List.length row)%nat /\
     drv_cursor_close D cur w3 = (inr tt, w4)).
Proof.
  intros Hc. unfold test_dashboard_connection. rewrite bind_get_self, Hc.
  unfold try_except, bind, new_cursor, execute, fetchone, cursor_close, call,
    lift, ret, raise.
  split.
  - destruct (drv_cursor D c SnowflakeCursor (world s)) as [[e | cur] w1] eqn:E1;
      simpl; [discriminate|].
    destruct (drv_execute D cur _ w1) as [[e | []] w2] eqn:E2;
      simpl; [discriminate|].
    destruct (drv_fetchone D cur w2) as [[e | [row|]] w3] eqn:E3;
      simpl; try discriminate.
    destruct row as [|a [|b [|x rest]]]; simpl; try discriminate.
    destruct (drv_cursor_close D cur w3) as [[e | []] w4] eqn:E4;
      simpl; [discriminate|].
    intros _. exists cur, (a :: b :: x :: rest), w1, w2, w3, w4.
    repeat split; auto. simpl. lia.
  - intros (cur & row & w1 & w2 & w3 & w4 & E1 & E2 & E3 & Hlen & E4).
    rewrite E1. simpl. rewrite E2. simpl. rewrite E3. simpl.
    destruct row as [|a [|b [|x rest]]]; simpl in Hlen; try lia.
    simpl. rewrite E4. reflexivity.
Qed.

(** With a connection in the Assistant slot, [test_cortex_connection] returns
    [True] exactly when the identity statement gives a row of at least two
    columns, the completion test gives a row whose first column can be
    sliced, as text and bytes can, and the cursor closes; in every other case
    it returns [False]. *)
Theorem test_cortex_connection_true_iff (c : conn) (s : state W) :
  cortex_conn (self s) = Some c ->
  (fst (test_cortex_connection D s) = inr true <->
   exists cur row first rest w1 w2 w3 w4 w5 w6,
     drv_cursor D c SnowflakeCursor (world s) = (inr cur, w1) /\
     drv_execute D cur "SELECT CURRENT_USER(), CURRENT_ROLE()" w1 = (inr tt, w2) /\
     drv_fetchone D cur w2 = (inr (Some row), w3) /\
     (2 <= List.length row)%nat /\
     drv_execute D cur
       "SELECT SNOWFLAKE.CORTEX.COMPLETE('snowflake-arctic', 'Hello') as test" w3 =
     (inr tt, w4) /\
     drv_fetchone D cur w4 = (inr (Some (first :: rest)), w5) /\
     (exists content, first = VStr content \/ first = VBytes content) /\
     drv_cursor_close D cur w5 = (inr tt, w6)).
Proof.
  intros Hc. unfold test_cortex_connection. rewrite bind_get_self, Hc.
  unfold try_except, bind, new_cursor, execute, fetchone, cursor_close, call,
    lift, ret, raise.
  split.
  - destruct (drv_cursor D c SnowflakeCursor (world s)) as [[e | cur] w1] eqn:E1;
      simpl; [discriminate|].
    destruct (drv_execute D cur _ w1) as [[e | []] w2] eqn:E2;
      simpl; [discriminate|].
    destruct (drv_fetchone D cur w2) as [[e | [row|]] w3] eqn:E3;
      simpl; try discriminate.
    destruct row as [|a [|b rest0]]; simpl; try discriminate.
    destruct (drv_execute D cur _ w3) as [[e | []] w4] eqn:E4;
      simpl; [discriminate|].
    destruct (drv_fetchone D cur w4) as [[e | [trow|]] w5] eqn:E5;
      simpl; try discriminate.
    destruct trow as [|first rest]; simpl; try discriminate.
    destruct first as [| z | text | bytes]; simpl; try discriminate.
    + destruct (drv_cursor_close D cur w5) as [[e | []] w6] eqn:E6;
        simpl; [discriminate|].
      intros _.
      exists cur, (a :: b :: rest0), (VStr text), rest, w1, w2, w3, w4, w5, w6.
      repeat split; auto; [simpl; lia | exists text; now left].
    + destruct (drv_cursor_close D cur w5) as [[e | []] w6] eqn:E6;
        simpl; [discriminate|].
      intros _.
      exists cur, (a :: b :: rest0), (VBytes bytes), rest, w1, w2, w3, w4, w5, w6.
      repeat split; auto; [simpl; lia | exists bytes; now right].
  - intros (cur & row & first & rest & w1 & w2 & w3 & w4 & w5 & w6 &
            E1 & E2 & E3 & Hlen & E4 & E5 & [content Hfirst] & E6).
    rewrite E1. simpl. rewrite E2. simpl. rewrite E3. simpl.
    destruct row as [|a [|b rest0]]; simpl in Hlen; try lia.
    simpl. rewrite E4. simpl. rewrite E5. simpl.
    destruct Hfirst as [-> | ->]; simpl; rewrite E6; reflexivity.
Qed.

(** *** The demonstration routine *)

Lemma bind_run {A B : Type} (m : @M W A) (k : A -> @M W B) (s : state W) :
  bind m k s =
  match m s with
  | (inl e, s') => (inl e, s')
  | (inr a, s') => k a s'
  end.
Proof. reflexivity. Qed.


Lemma quiet_step {A B : Type} (allowed : event -> bool) (m : @M W A)
    (k : A -> @M W B) (s : state W) :
  never_raises m -> confined allowed m ->
  exists a s1 evs,
    self s1 = self s /\
    trace s1 = (trace s ++ evs)%list /\
    forallb allowed evs = true /\
    bind m k s = k a s1.
Proof.
  intros Hn Hc. destruct (Hn s) as [a Ha]. destruct (Hc s) as [Hs [evs [E F]]].
  rewrite bind_run. destruct (m s) as [r s1]. simpl in *. subst r.
  exists a, s1, evs. auto.
Qed.




Lemma connect_dashboard_sso_run a u w d sc r au (s : state W) :
  connect_dashboard_sso D a u w d sc r au s =
  match drv_connect D (sso_args a u w d sc r au) (world s) with
  | (inl e, w') =>
      (inl (DriverError e),
       mkState (self s) w' (trace s ++ [EvConnect (sso_args a u w d sc r au)]))
  | (inr c, w') =>
      (inr c,
       mkState (mkManager (Some c) (cortex_conn (self s))) w'
         (trace s ++ [EvConnect (sso_args a u w d sc r au)]))
  end.
Proof.
  unfold connect_dashboard_sso, connect, bind, call, set_dashboard_conn, ret,
    sso_args.
  destruct (drv_connect D _ (world s)) as [[e | c] w']; reflexivity.
Qed.




Lemma no_close_within_session (evs : list event) :
  forallb within_session evs = true ->
  forallb (fun ev => negb (is_close ev)) evs = true.
Proof.
  rewrite !forallb_forall. intros F ev Hin.
  now destruct (within_session_split ev (F ev Hin)).
Qed.


(** *** The statements that reach the driver *)

Ltac statement_tac :=
  unfold connect, load_key, new_cursor, execute, fetchone, fetchone_dict,
    fetchall_dict, cursor_close, conn_close;
  repeat first
    [ apply confined_ret | apply confined_raise | apply confined_lift
    | apply confined_get_self
    | apply confined_call; first [ reflexivity | apply String.eqb_refl ]
    | apply confined_bind; [ | intros ]
    | match goal with
      | |- confined _ (match ?x with _ => _ end) => destruct x
      | |- confined _ (let _ := _ in _) => cbv zeta
      end ].

Lemma get_dashboard_kpi_statements (kpi_name : string) :
  confined (submits_only registered_statement) (get_dashboard_kpi D kpi_name).
Proof.
  unfold get_dashboard_kpi.
  apply confined_bind; [apply confined_get_self | intros me].
  destruct (dashboard_conn me) as [c|]; [|apply confined_raise].
  apply confined_bind; [apply confined_call; reflexivity | intros cur].
  destruct (dict_get queries kpi_name) as [sql|] eqn:Hq; [|apply confined_raise].
  destruct (inside_registry _ _ Hq) as [[_ ->] | [_ ->]]; statement_tac.
Qed.

Lemma query_cortex_statements (q model : string) (context : option string) :
  confined
    (submits_only
       (String.eqb (complete_sql model (str_or context default_system_prompt) q)))
    (query_cortex D json_loads q model context).
Proof. unfold query_cortex. statement_tac. Qed.

Lemma cortex_search_statements (sv q : string) (cols : list string) (limit : Z) :
  confined (submits_only (String.eqb (search_sql sv q cols limit)))
    (cortex_search D sv q cols limit).
Proof. unfold cortex_search. statement_tac. Qed.

Lemma submitted_only {A : Type} (ok : string -> bool) (m : @M W A) (s : state W) :
  confined (submits_only ok) m ->
  exists evs,
    trace (snd (m s)) = (trace s ++ evs)%list /\
    forall cur sql, In (EvExecute cur sql) evs -> ok sql = true.
Proof.
  intros Hm. destruct (Hm s) as [_ [evs [E F]]]. exists evs.
  split; [exact E|]. intros cur sql Hin.
  rewrite forallb_forall in F. exact (F _ Hin).
Qed.

(** Whatever the driver answers, the only statements [get_dashboard_kpi] ever
    executes are the two of the registry, whatever name it is given; the only
    one [query_cortex] executes is its completion statement, and the only one
    [cortex_search] executes is its search statement. *)
Theorem submitted_statements (s : state W) :
  (forall kpi_name,
     exists evs,
       trace (snd (get_dashboard_kpi D kpi_name s)) = (trace s ++ evs)%list /\
       forall cur sql,
         In (EvExecute cur sql) evs ->
         sql = delinquency_sql \/ sql = portfolio_overview_sql) /\
  (forall q model context,
     exists evs,
       trace (snd (query_cortex D json_loads q model context s)) =
       (trace s ++ evs)%list /\
       forall cur sql,
         In (EvExecute cur sql) evs ->
         sql = complete_sql model (str_or context default_system_prompt) q) /\
  (forall sv q cols limit,
     exists evs,
       trace (snd (cortex_search D sv q cols limit s)) = (trace s ++ evs)%list /\
       forall cur sql,
         In (EvExecute cur sql) evs -> sql = search_sql sv q cols limit).
Proof.
  repeat split.
  - intros kpi_name.
    destruct (submitted_only _ _ s (get_dashboard_kpi_statements kpi_name))
      as [evs [E F]].
    exists evs. split; [exact E|]. intros cur sql Hin.
    specialize (F cur sql Hin). unfold registered_statement, queries in F.
    simpl in F. rewrite orb_false_r in F. apply orb_prop in F.
    destruct F as [F | F]; apply String.eqb_eq in F; auto.
  - intros q model context.
    destruct (submitted_only _ _ s (query_cortex_statements q model context))
      as [evs [E F]].
    exists evs. split; [exact E|]. intros cur sql Hin.
    specialize (F cur sql Hin). now apply String.eqb_eq in F.
  - intros sv q cols limit.
    destruct (submitted_only _ _ s (cortex_search_statements sv q cols limit))
      as [evs [E F]].
    exists evs. split; [exact E|]. intros cur sql Hin.
    specialize (F cur sql Hin). now apply String.eqb_eq in F.
Qed.

(** *** The entry point *)

(** When one of the three required variables is unset or empty, the entry
    point returns without a single call to the driver. *)
Theorem main_needs_all_variables (env : environ) (var : string) (s : state W) :
  In var required_vars ->
  env var = None \/ env var = Some "" ->
  main D json_loads json_dumps env s = (inr tt, s).
Proof.
  intros Hin Hv. unfold main.
  assert (Hm : In var (missing_vars env)).
  { unfold missing_vars. apply filter_In. split; [exact Hin|].
    destruct Hv as [-> | ->]; reflexivity. }
  destruct (missing_vars env); [contradiction | reflexivity].
Qed.

(** With the three variables set, a [CORTEX_PAT] that does not begin with
    [sfp_] and a Dashboard connect that succeeds, the entry point raises the
    invalid-format error with the Dashboard handle in its slot: after the
    Dashboard connect it asks the driver for no further connect and for no
    close, so the connection it opened stays open. *)
Theorem main_malformed_pat
    (env : environ) (account user pat : string) (s : state W) (dc : conn)
    (w1 : W) :
  env "SNOWFLAKE_ACCOUNT" = Some account -> str_truthy account = true ->
  env "SNOWFLAKE_USER" = Some user -> str_truthy user = true ->
  env "CORTEX_PAT" = Some pat -> str_truthy pat = true ->
  startswith "sfp_" pat = false ->
  drv_connect D (demo_sso_args account user) (world s) = (inr dc, w1) ->
  let out := main D json_loads json_dumps env s in
  fst out = inl invalid_pat_format /\
  self (snd out) = mkManager (Some dc) (cortex_conn (self s)) /\
  exists evs,
    trace (snd out) =
    (trace s ++ EvConnect (demo_sso_args account user) :: evs)%list /\
    forallb within_session evs = true.
Proof.
  intros Ha Ta Hu Tu Hp Tp Hpre Hconn. cbv zeta. unfold main.
  assert (Hm : missing_vars env = []).
  { unfold missing_vars, required_vars. simpl.
    now rewrite Ha, Ta, Hu, Tu, Hp, Tp. }
  rewrite Hm, Ha, Hu, Hp. unfold example_usage.
  rewrite bind_run, connect_dashboard_sso_run.
  unfold demo_sso_args in Hconn. rewrite Hconn.
  match goal with
  | |- context [bind (test_dashboard_connection D) ?k ?s1] =>
      destruct (quiet_step within_session (test_dashboard_connection D) k s1
                  test_dashboard_connection_returns
                  test_dashboard_connection_confined)
        as (b & s2 & evs2 & Hs2 & E2 & F2 & R2)
  end.
  rewrite R2. simpl in Hs2, E2.
  rewrite bind_run. unfold connect_cortex_pat. rewrite Hpre. simpl.
  split; [reflexivity|]. split; [exact Hs2|].
  exists evs2. split; [|exact F2].
  rewrite E2. now rewrite <- app_assoc.
Qed.

(** *** Connecting with a key pair *)

(** [connect_dashboard_keypair] loads the key before it connects, with no
    password when the passphrase is absent or empty: when the loader raises,
    the connect is not attempted and both slots stay as they were. *)
Theorem keypair_key_failure
    (account user private_key_path warehouse database schema role : string)
    (passphrase : option string) (s : state W) (e : driver_exn) (w' : W) :
  drv_load_key D private_key_path (key_password passphrase) (world s) =
  (inl e, w') ->
  connect_dashboard_keypair D account user private_key_path warehouse database
    schema role passphrase s =
  (inl (DriverError e),
   mkState (self s) w'
     (trace s ++ [EvLoadKey private_key_path (key_password passphrase)])).
Proof.
  intros E. unfold connect_dashboard_keypair, bind, load_key, call.
  fold (key_password passphrase). now rewrite E.
Qed.

End FurtherProperties.

(** ** The further properties on concrete runs *)

Lemma close_all_stops_at_first_failure_witness :
  let D := tracking true (mkScript [] []) in
  let s := snd (close_all D (with_cortex D (with_dashboard D empty_db))) in
  self s = mkManager (Some 1) (Some 2) /\
  close_all D s =
  (inl (DriverError "Connection is already closed"),
   mkState (self s) (world s) (trace s ++ [EvClose 1])).
Proof.
  cbv zeta. split; [reflexivity|].
  apply (close_all_stops_at_first_failure (tracking true (mkScript [] [])) 1
           (snd (close_all (tracking true (mkScript [] []))
                   (with_cortex (tracking true (mkScript [] []))
                      (with_dashboard (tracking true (mkScript [] [])) empty_db))))
           "Connection is already closed");
    reflexivity.
Defined.

Lemma failed_execute_leaves_cursor_open_witness :
  let D := faulty (mkFaults false true false) (mkScript [] [overview_row]) in
  let s := with_cortex D (with_dashboard D tt) in
  get_dashboard_kpi D "delinquency" s =
  (inl (DriverError "SQL compilation error"),
   mkState (self s) tt
     (trace s ++ [EvCursor 1 DictCursor; EvExecute 1 delinquency_sql])) /\
  existsb is_cursor_close
    (trace (snd (cortex_search D "servicing_docs" "foreclosure process"
                   ["title"] default_limit s))) = false.
Proof.
  cbv zeta.
  destruct (failed_execute_leaves_cursor_open
              (faulty (mkFaults false true false) (mkScript [] [overview_row]))
              1
              (with_cortex
                 (faulty (mkFaults false true false) (mkScript [] [overview_row]))
                 (with_dashboard
                    (faulty (mkFaults false true false)
                       (mkScript [] [overview_row])) tt))
              1 "SQL compilation error" tt tt) as [Kpi Search].
  split.
  - apply (Kpi "delinquency" delinquency_sql); reflexivity.
  - rewrite (Search "servicing_docs" "foreclosure process" ["title"]
               default_limit eq_refl eq_refl eq_refl).
    reflexivity.
Defined.

Lemma query_cortex_first_choice_witness :
  let s := with_cortex answer_mock (fresh tt) in
  loads_sample (FromStr sample_text) = inr sample_response /\
  fst (query_cortex answer_mock loads_sample
         "What is the current delinquency rate?" default_model None s) =
  inr (JStr "All good").
Proof.
  cbv zeta. split; [reflexivity|].
  apply (query_cortex_first_choice answer_mock loads_sample
           "What is the current delinquency rate?" default_model None 1
           (with_cortex answer_mock (fresh tt)) 1 sample_text [VInt 1]
           [("choices",
             JArr [JObj [("messages", JStr "All good"); ("finish", JStr "stop")];
                   JObj [("messages", JStr "Second")]]);
            ("usage", JNum 12)]
           [("messages", JStr "All good"); ("finish", JStr "stop")]
           [JObj [("messages", JStr "Second")]]
           (JStr "All good") tt tt tt tt);
    reflexivity.
Defined.

Lemma query_cortex_malformed_response_witness :
  let s := with_cortex null_mock (fresh tt) in
  cortex_conn (self s) = Some 1 /\
  drv_fetchone null_mock 1 tt = (inr (Some [VNone]), tt) /\
  fst (query_cortex null_mock loads_sample
         "What is the current delinquency rate?" default_model None s) =
  inl TypeError /\
  existsb is_cursor_close
    (trace (snd (query_cortex null_mock loads_sample
                   "What is the current delinquency rate?" default_model None s)))
  = true.
Proof.
  cbv zeta. split; [reflexivity|]. split; [reflexivity|].
  destruct (query_cortex_malformed_response null_mock loads_sample
              "What is the current delinquency rate?" default_model None 1
              (with_cortex null_mock (fresh tt)) 1 VNone [] tt tt tt tt
              eq_refl eq_refl eq_refl eq_refl eq_refl)
    as [Tr [NotText _]].
  split.
  - apply NotText. now left.
  - rewrite Tr. reflexivity.
Defined.

Lemma with_data_without_query_witness :
  let s := with_cortex empty_mock (with_dashboard empty_mock tt) in
  self s = mkManager (Some 1) (Some 1) /\
  query_cortex_with_data empty_mock loads_stub dumps_stub
    "Explain the current delinquency trends" default_model (Some "") s =
  query_cortex empty_mock loads_stub
    "Explain the current delinquency trends" default_model None s.
Proof.
  cbv zeta. split; [reflexivity|].
  apply (with_data_without_query empty_mock loads_stub dumps_stub
           "Explain the current delinquency trends" default_model (Some "") 1 1);
    [reflexivity | reflexivity | now right].
Defined.

Lemma with_data_appends_rows_witness :
  let s := with_cortex answer_mock (with_dashboard answer_mock tt) in
  fst (query_cortex_with_data answer_mock loads_sample dumps_stub
         "Explain the current delinquency trends" default_model
         (Some "SELECT * FROM delinquency_summary LIMIT 10") s) =
  inr (JStr "All good") /\
  In (EvExecute 1
        (complete_sql default_model default_system_prompt
           ("Explain the current delinquency trends" ++ nl ++ nl ++
            "Here is the relevant data:" ++ nl ++ "[]")))
     (trace (snd (query_cortex_with_data answer_mock loads_sample dumps_stub
                    "Explain the current delinquency trends" default_model
                    (Some "SELECT * FROM delinquency_summary LIMIT 10") s))).
Proof.
  cbv zeta.
  rewrite (with_data_appends_rows answer_mock loads_sample dumps_stub
             "Explain the current delinquency trends" default_model
             "SELECT * FROM delinquency_summary LIMIT 10" 1 1
             (with_cortex answer_mock (with_dashboard answer_mock tt)) 1
             [overview_row] tt tt tt tt
             eq_refl eq_refl eq_refl eq_refl eq_refl eq_refl eq_refl).
  split; [reflexivity|].
  vm_compute. auto 12.
Defined.

Lemma with_data_failed_query_witness :
  let D := faulty (mkFaults false false true) (mkScript [] [overview_row]) in
  let s := with_cortex D (with_dashboard D tt) in
  query_cortex_with_data D loads_stub dumps_stub
    "Explain the current delinquency trends" default_model
    (Some "SELECT * FROM delinquency_summary LIMIT 10") s =
  (inl (DriverError "Result set expired"),
   mkState (self s) tt
     (trace s ++ [EvCursor 1 DictCursor;
                  EvExecute 1 "SELECT * FROM delinquency_summary LIMIT 10";
                  EvFetchall 1])).
Proof.
  cbv zeta.
  apply (proj2 (with_data_failed_query
                  (faulty (mkFaults false false true) (mkScript [] [overview_row]))
                  loads_stub dumps_stub
                  "Explain the current delinquency trends" default_model
                  "SELECT * FROM delinquency_summary LIMIT 10" 1 1
                  (with_cortex
                     (faulty (mkFaults false false true)
                        (mkScript [] [overview_row]))
                     (with_dashboard
                        (faulty (mkFaults false false true)
                           (mkScript [] [overview_row])) tt))
                  1 "Result set expired" tt tt
                  eq_refl eq_refl eq_refl eq_refl) tt);
    reflexivity.
Defined.

Lemma test_dashboard_connection_true_iff_witness :
  fst (test_dashboard_connection identity_mock (with_dashboard identity_mock tt)) =
  inr true /\
  fst (test_dashboard_connection short_mock (with_dashboard short_mock tt)) =
  inr false.
Proof.
  split.
  - apply (proj2 (test_dashboard_connection_true_iff identity_mock 1
                    (with_dashboard identity_mock tt) eq_refl)).
    exists 1, [VStr "ANALYST"; VStr "ANALYST_ROLE"; VStr "COMPUTE_WH"], tt, tt, tt, tt.
    repeat split. simpl. lia.
  - destruct (fst (test_dashboard_connection short_mock
                     (with_dashboard short_mock tt))) as [e | [|]] eqn:R;
      [discriminate R | | reflexivity].
    apply (proj1 (test_dashboard_connection_true_iff short_mock 1
                    (with_dashboard short_mock tt) eq_refl)) in R.
    destruct R as (cur & row & w1 & w2 & w3 & w4 & _ & _ & E3 & Hlen & _).
    simpl in E3. injection E3 as <-. simpl in Hlen. lia.
Defined.

Lemma test_cortex_connection_true_iff_witness :
  fst (test_cortex_connection short_mock (with_cortex short_mock (fresh tt))) =
  inr true /\
  fst (test_cortex_connection bytes_mock (with_cortex bytes_mock (fresh tt))) =
  inr true /\
  fst (test_cortex_connection null_mock (with_cortex null_mock (fresh tt))) =
  inr false.
Proof.
  split; [|split].
  - apply (proj2 (test_cortex_connection_true_iff short_mock 1
                    (with_cortex short_mock (fresh tt)) eq_refl)).
    exists 1, [VStr "ANALYST"; VStr "ANALYST_ROLE"], (VStr "ANALYST"),
      [VStr "ANALYST_ROLE"], tt, tt, tt, tt, tt, tt.
    repeat split; [simpl; lia | exists "ANALYST"; now left].
  - apply (proj2 (test_cortex_connection_true_iff bytes_mock 1
                    (with_cortex bytes_mock (fresh tt)) eq_refl)).
    exists 1, [VBytes sample_text; VStr "ANALYST_ROLE"], (VBytes sample_text),
      [VStr "ANALYST_ROLE"], tt, tt, tt, tt, tt, tt.
    repeat split; [simpl; lia | exists sample_text; now right].
  - destruct (fst (test_cortex_connection null_mock
                     (with_cortex null_mock (fresh tt)))) as [e | [|]] eqn:R;
      [discriminate R | | reflexivity].
    apply (proj1 (test_cortex_connection_true_iff null_mock 1
                    (with_cortex null_mock (fresh tt)) eq_refl)) in R.
    destruct R as (cur & row & first & rest & w1 & w2 & w3 & w4 & w5 & w6 &
                   _ & _ & E3 & Hlen & _).
    simpl in E3. injection E3 as <-. simpl in Hlen. lia.
Defined.

Lemma main_needs_all_variables_witness :
  In "CORTEX_PAT" required_vars /\
  demo_env "" "CORTEX_PAT" = Some "" /\
  main empty_mock loads_stub dumps_stub (demo_env "") (fresh tt) =
  (inr tt, fresh tt).
Proof.
  split; [simpl; auto|]. split; [reflexivity|].
  apply (main_needs_all_variables empty_mock loads_stub dumps_stub
           (demo_env "") "CORTEX_PAT" (fresh tt)).
  - simpl. auto.
  - now right.
Defined.

Lemma main_malformed_pat_witness :
  let out := main empty_mock loads_stub dumps_stub (demo_env "abc123") (fresh tt) in
  startswith "sfp_" "abc123" = false /\
  fst out = inl invalid_pat_format /\
  self (snd out) = mkManager (Some 1) None /\
  existsb is_close (trace (snd out)) = false.
Proof.
  cbv zeta. split; [reflexivity|].
  destruct (main_malformed_pat empty_mock loads_stub dumps_stub
              (demo_env "abc123") "xy12345.us-east-1" "analyst@example.com"
              "abc123" (fresh tt) 1 tt
              eq_refl eq_refl eq_refl eq_refl eq_refl eq_refl eq_refl eq_refl)
    as [R [Sl _]].
  split; [exact R|]. split; [exact Sl|]. reflexivity.
Defined.

Lemma keypair_key_failure_witness :
  let D := faulty (mkFaults true false false) (mkScript [] []) in
  key_password (Some "") = None /\
  connect_dashboard_keypair D "xy12345.us-east-1" "svc_dashboard"
    "/keys/rsa_key.p8" "COMPUTE_WH" "ANALYTICS_DB" "PUBLIC" "ANALYST_ROLE"
    (Some "") (fresh tt) =
  (inl (DriverError "Could not deserialize key data"),
   mkState init tt [EvLoadKey "/keys/rsa_key.p8" None]).
Proof.
  cbv zeta. split; [reflexivity|].
  apply (keypair_key_failure (faulty (mkFaults true false false) (mkScript [] []))
           "xy12345.us-east-1" "svc_dashboard" "/keys/rsa_key.p8" "COMPUTE_WH"
           "ANALYTICS_DB" "PUBLIC" "ANALYST_ROLE" (Some "") (fresh tt)
           "Could not deserialize key data" tt).
  reflexivity.
Defined.
